(** * playground/pysolver: the mock Solver API

    A shallow embedding of [models.py] (the pydantic schemas of the wire
    contract) and [main.py] (the FastAPI handlers), followed by the properties
    of the interface description that can be settled on them.

    Python values are modelled as the code has them: [int] as [Z], [float] as
    the binary64 primitive [float], [str] as [string] (a character is a code
    point, so the strings of the model are those below U+0100), a [dict] as an
    insertion-ordered association list with unique keys, an exception as the
    error branch of [result]. *)

From Stdlib Require Import ZArith List String Ascii Bool Lia.
From Stdlib Require Import PrimFloat SpecFloat FloatOps.
From Stdlib Require Import DecimalString DecimalPos DecimalZ.
Import ListNotations.
Local Open Scope string_scope.
Local Open Scope Z_scope.

(** ** Exceptions and results *)

(** The exceptions the modelled code can raise.  [ValidationError] is
    pydantic's (FastAPI answers it with status 422 and the list of errors,
    when that list can be rendered; the model keeps the first error: its
    location path and its type tag).  Any other exception escaping a handler
    or a validator is answered with 500. *)
Inductive exception : Type :=
| ValueError
| TypeError
| OverflowError
| ValidationError (loc : list string) (type : string).

Inductive result (A : Type) : Type :=
| Ok (a : A)
| Raise (e : exception).
Arguments Ok {A} a.
Arguments Raise {A} e.

Definition bind {A B : Type} (m : result A) (k : A -> result B) : result B :=
  match m with
  | Ok a => k a
  | Raise e => Raise e
  end.

Notation "x <- m ;; k" := (bind m (fun x => k))
  (at level 61, m at next level, right associativity).
Notation "' p <- m ;; k" := (bind m (fun x => match x with p => k end))
  (at level 61, p pattern, m at next level, right associativity).

Definition fmap {A B : Type} (f : A -> B) (m : result A) : result B :=
  x <- m ;; Ok (f x).

(** The status code of the answer FastAPI builds for the outcome of a
    request.  The answer to a validation error has a body of its own, which
    has to be rendered before it is sent: see [sent_status]. *)
Definition status_code {A : Type} (r : result A) : Z :=
  match r with
  | Ok _ => 200
  | Raise (ValidationError _ _) => 422
  | Raise _ => 500
  end.

Definition is_ok {A : Type} (r : result A) : bool :=
  match r with
  | Ok _ => true
  | Raise _ => false
  end.

(** ** Python builtins used by the code *)

Module Py.

(** The white space [int()] skips around a literal: TAB..CR and the blank
    and, above the ASCII range, NEL and the no-break space.  (FS..US, for
    which [str.isspace] holds as well, are not skipped.) *)
Definition isspace (c : ascii) : bool :=
  let n := Z.of_N (N_of_ascii c) in
  ((9 <=? n) && (n <=? 13)) || (n =? 32) || (n =? 133) || (n =? 160).

(** [s.isascii()]. *)
Definition isascii (s : string) : bool :=
  forallb (fun c => Z.of_N (N_of_ascii c) <? 128) (list_ascii_of_string s).

Definition digit (c : ascii) : option Z :=
  let n := Z.of_N (N_of_ascii c) in
  if (48 <=? n) && (n <=? 57) then Some (n - 48) else None.

(** [c.isdigit()] on the ASCII range. *)
Definition isdigit (c : ascii) : bool :=
  match digit c with
  | Some _ => true
  | None => false
  end.

Fixpoint lstrip (s : list ascii) : list ascii :=
  match s with
  | c :: s' => if isspace c then lstrip s' else s
  | [] => []
  end.

Definition strip (s : list ascii) : list ascii :=
  rev (lstrip (rev (lstrip s))).

(** What stands before the current character of an integer literal: an
    underscore is allowed between two digits only. *)
Inductive literal_state : Type := AtStart | AfterDigit | AfterUnderscore.

(** The digits of [int(s)]: the value read so far and the number of digits. *)
Fixpoint int_digits (acc : Z) (n : Z) (st : literal_state) (s : list ascii)
  : option (Z * Z) :=
  match s with
  | [] => match st with AfterDigit => Some (acc, n) | _ => None end
  | c :: s' =>
      match digit c with
      | Some d => int_digits (10 * acc + d) (n + 1) AfterDigit s'
      | None =>
          if Ascii.eqb c "_"
          then match st with
               | AfterDigit => int_digits acc n AfterUnderscore s'
               | _ => None
               end
          else None
      end
  end.

(** CPython's default [sys.int_max_str_digits]. *)
Definition int_max_str_digits : Z := 4300.

(** [int(s)] for a [str] [s], base 10: surrounding whitespace is skipped, one
    sign is allowed, the digits may be grouped by single underscores; anything
    else raises [ValueError], as does a literal of more than
    [int_max_str_digits] digits. *)
Definition int_of_str (s : string) : result Z :=
  let body := strip (list_ascii_of_string s) in
  let '(negative, digits) :=
    match body with
    | c :: rest =>
        if Ascii.eqb c "-" then (true, rest)
        else if Ascii.eqb c "+" then (false, rest)
        else (false, body)
    | [] => (false, body)
    end in
  match int_digits 0 0 AtStart digits with
  | Some (v, n) =>
      if n <=? int_max_str_digits
      then Ok (if negative then - v else v)
      else Raise ValueError
  | None => Raise ValueError
  end.

(** The decimal numeral of [n], with its sign when [n < 0]. *)
Definition decimal (n : Z) : string :=
  NilZero.string_of_int (Z.to_int n).

Definition len (s : string) : Z := Z.of_nat (String.length s).

(** [str(n)] for an [int] [n], which is also what an f-string writes for it:
    the decimal numeral; [ValueError] when it has more than
    [int_max_str_digits] digits. *)
Definition str_of_int (n : Z) : result string :=
  if len (decimal (Z.abs n)) <=? int_max_str_digits
  then Ok (decimal n)
  else Raise ValueError.

(** [int(x)] for a [float] [x]: truncation toward zero. *)
Definition int_of_float (x : float) : result Z :=
  match Prim2SF x with
  | S754_zero _ => Ok 0
  | S754_infinity _ => Raise OverflowError
  | S754_nan => Raise ValueError
  | S754_finite s m e =>
      let a := Z.shiftl (Z.pos m) e in
      Ok (if s then - a else a)
  end.

(** [x.is_integer()]. *)
Definition float_is_integer (x : float) : bool :=
  match Prim2SF x with
  | S754_zero _ => true
  | S754_finite _ m e => (0 <=? e) || (Z.pos m mod 2 ^ (- e) =? 0)
  | _ => false
  end.

(** The binary64 value nearest to [m * 2^e] (ties to even). *)
Definition float_of_scaled (m e : Z) : float :=
  SF2Prim (binary_normalize prec emax m e false).

(** [float(n)] for an [int] [n]. *)
Definition float_of_int (n : Z) : result float :=
  let x := float_of_scaled n 0 in
  if is_infinity x then Raise OverflowError else Ok x.

(** A [dict] with [str] keys: the items in insertion order, keys unique. *)
Definition dict (V : Type) : Type := list (string * V).

Fixpoint dict_get {V : Type} (k : string) (d : dict V) : option V :=
  match d with
  | [] => None
  | (k', v) :: d' => if String.eqb k k' then Some v else dict_get k d'
  end.

(** [d[k] = v]: an existing key keeps its place, a new one goes last. *)
Fixpoint dict_set {V : Type} (k : string) (v : V) (d : dict V) : dict V :=
  match d with
  | [] => [(k, v)]
  | (k', v') :: d' =>
      if String.eqb k k' then (k', v) :: d' else (k', v') :: dict_set k v d'
  end.

(** A dict display [{k1: v1, k2: v2, ...}], and [dict(items)]. *)
Definition dict_of_items {V : Type} (items : list (string * V)) : dict V :=
  fold_left (fun d kv => dict_set (fst kv) (snd kv) d) items [].

Definition keys {V : Type} (d : dict V) : list string := map fst d.

(** [c * n] for a one-character string [c]: empty when [n <= 0]. *)
Definition str_repeat (c : ascii) (n : Z) : string :=
  string_of_list_ascii (repeat c (Z.to_nat n)).

End Py.

(** ** JSON values

    The request body as the handlers' validation receives it, that is as
    [json.loads] read it ([NaN], [Infinity], [-Infinity] and a literal out of
    the binary64 range are read as the floats), and the response body as it
    is sent: [None], [bool], [int], [float], [str], [list] and [dict]
    objects. *)

#[local] Set Warnings "-register-all".
Inductive json : Type :=
| JNull
| JBool (b : bool)
| JInt (n : Z)
| JFloat (x : float)
| JStr (s : string)
| JArr (items : list json)
| JObj (members : Py.dict json).

(** ** pydantic: validation and serialization of the field types

    Validation is pydantic's default (lax) mode, which the models do not
    change: besides the exact type a field accepts the inputs pydantic
    converts to it.  Where pydantic reports every error of a payload, the
    model reports the first.  Serialization is FastAPI's for a
    [response_model]: by alias, every field present. *)

Module Pydantic.

(** An error raised below a field, an index or a key gets it in front of its
    location. *)
Definition at_loc {A : Type} (name : string) (r : result A) : result A :=
  match r with
  | Raise (ValidationError loc type) => Raise (ValidationError (name :: loc) type)
  | _ => r
  end.

Definition type_error {A : Type} (type : string) : result A :=
  Raise (ValidationError [] type).

(** [str]: a string and nothing else. *)
Definition validate_str (j : json) : result string :=
  match j with
  | JStr s => Ok s
  | _ => type_error "string_type"
  end.

(** [int]: an int; a bool; a float without a fractional part, strictly
    between [-2^63] and [2^63]; a numeric string, read as [int()] reads it. *)
Definition validate_int (j : json) : result Z :=
  match j with
  | JInt n => Ok n
  | JBool b => Ok (if b then 1 else 0)
  | JFloat x =>
      if negb (is_finite x) then type_error "finite_number"
      else if Py.float_is_integer x
      then match Py.int_of_float x with
           | Ok n =>
               if (- 2 ^ 63 <? n) && (n <? 2 ^ 63) then Ok n
               else type_error "int_parsing_size"
           | Raise _ => type_error "int_from_float"
           end
      else type_error "int_from_float"
  | JStr s =>
      match Py.int_of_str s with
      | Ok n => Ok n
      | Raise _ => type_error "int_parsing"
      end
  | _ => type_error "int_type"
  end.

Definition lower (c : ascii) : ascii :=
  let n := N_of_ascii c in
  if ((65 <=? n) && (n <=? 90))%N then ascii_of_N (n + 32) else c.

Definition lowercase (s : list ascii) : string :=
  string_of_list_ascii (map lower s).

Definition str_in (s : string) (l : list string) : bool :=
  existsb (String.eqb s) l.

(** [bool]: a bool; 0 or 1; one of the words pydantic reads as a bool. *)
Definition validate_bool (j : json) : result bool :=
  match j with
  | JBool b => Ok b
  | JInt n =>
      if n =? 0 then Ok false
      else if n =? 1 then Ok true
      else type_error "bool_parsing"
  | JFloat x =>
      if PrimFloat.eqb x 0 then Ok false
      else if PrimFloat.eqb x 1 then Ok true
      else type_error "bool_parsing"
  | JStr s =>
      let w := lowercase (list_ascii_of_string s) in
      if str_in w ["0"; "off"; "f"; "false"; "n"; "no"] then Ok false
      else if str_in w ["1"; "on"; "t"; "true"; "y"; "yes"] then Ok true
      else type_error "bool_parsing"
  | _ => type_error "bool_type"
  end.

Fixpoint span_digits (s : list ascii) : list ascii * list ascii :=
  match s with
  | c :: s' =>
      match Py.digit c with
      | Some _ => let '(ds, rest) := span_digits s' in (c :: ds, rest)
      | None => ([], s)
      end
  | [] => ([], [])
  end.

Definition digits_value (ds : list ascii) : Z :=
  fold_left (fun acc c => 10 * acc + match Py.digit c with Some d => d | None => 0 end)
    ds 0.

Definition split_sign (s : list ascii) : bool * list ascii :=
  match s with
  | c :: rest =>
      if Ascii.eqb c "-" then (true, rest)
      else if Ascii.eqb c "+" then (false, rest)
      else (false, s)
  | [] => (false, s)
  end.

(** The binary64 value nearest to [m * 10^k], for [0 <= m]. *)
Definition float_of_decimal (m k : Z) : float :=
  if m =? 0 then 0%float
  else if 0 <=? k then Py.float_of_scaled (m * 10 ^ k) 0
  else
    let d := 10 ^ (- k) in
    let s := Z.max 0 (64 + Z.log2 d - Z.log2 m) in
    let n := Z.shiftl m s in
    Py.float_of_scaled (2 * (n / d) + (if n mod d =? 0 then 0 else 1)) (- s - 1).

(** A numeric string for a [float] field: blanks around it, a sign, then
    [inf], [infinity], [nan] or a decimal literal with an optional exponent. *)
Definition float_of_str (s : string) : option float :=
  let '(negative, body) := split_sign (Py.strip (list_ascii_of_string s)) in
  let signed (x : float) := if negative then PrimFloat.opp x else x in
  let w := lowercase body in
  if str_in w ["inf"; "infinity"] then Some (signed infinity)
  else if String.eqb w "nan" then Some nan
  else
    let '(int_part, rest) := span_digits body in
    let '(frac_part, rest) :=
      match rest with
      | c :: rest' => if Ascii.eqb c "." then span_digits rest' else ([], rest)
      | [] => ([], rest)
      end in
    let exponent :=
      match rest with
      | [] => Some 0
      | c :: rest' =>
          if Ascii.eqb (lower c) "e"
          then let '(eneg, erest) := split_sign rest' in
               match span_digits erest with
               | ((_ :: _) as ds, []) =>
                   Some (if eneg then - digits_value ds else digits_value ds)
               | _ => None
               end
          else None
      end in
    match (int_part ++ frac_part)%list, exponent with
    | (_ :: _) as ds, Some e =>
        Some (signed (float_of_decimal (digits_value ds)
                        (e - Z.of_nat (List.length frac_part))))
    | _, _ => None
    end.

(** [float]: a float; an int in range; a bool; a numeric string. *)
Definition validate_float (j : json) : result float :=
  match j with
  | JFloat x => Ok x
  | JInt n =>
      match Py.float_of_int n with
      | Ok x => Ok x
      | Raise _ => type_error "float_type"
      end
  | JBool b => Ok (if b then 1 else 0)%float
  | JStr s =>
      match float_of_str s with
      | Some x => Ok x
      | None => type_error "float_parsing"
      end
  | _ => type_error "float_type"
  end.

(** A float is sent as a number; infinities and NaN, which JSON cannot
    write, as [null]. *)
Definition dump_float (x : float) : json :=
  if is_finite x then JFloat x else JNull.

(** [Literal[...]]: one of the listed strings, as it stands. *)
Definition validate_literal {A : Type} (choices : list (string * A)) (j : json)
  : result A :=
  match j with
  | JStr s =>
      match Py.dict_get s choices with
      | Some a => Ok a
      | None => type_error "literal_error"
      end
  | _ => type_error "literal_error"
  end.

(** [List[X]]: every item validated in order, an error located by its index
    (written in decimal). *)
Fixpoint validate_items {A : Type} (v : json -> result A) (i : Z) (items : list json)
  : result (list A) :=
  match items with
  | [] => Ok []
  | j :: rest =>
      x <- at_loc (Py.decimal i) (v j) ;;
      xs <- validate_items v (i + 1) rest ;;
      Ok (x :: xs)
  end.

Definition validate_list {A : Type} (v : json -> result A) (j : json)
  : result (list A) :=
  match j with
  | JArr items => validate_items v 0 items
  | _ => type_error "list_type"
  end.

(** [Dict[str, X]]: every value validated in order, an error located by its
    key; the result is a dict again. *)
Fixpoint validate_members {V : Type} (v : json -> result V) (members : list (string * json))
  : result (list (string * V)) :=
  match members with
  | [] => Ok []
  | (k, j) :: rest =>
      x <- at_loc k (v j) ;;
      xs <- validate_members v rest ;;
      Ok ((k, x) :: xs)
  end.

Definition validate_dict {V : Type} (v : json -> result V) (j : json)
  : result (Py.dict V) :=
  match j with
  | JObj members => fmap Py.dict_of_items (validate_members v members)
  | _ => type_error "dict_type"
  end.

(** [Optional[X]]. *)
Definition validate_optional {A : Type} (v : json -> result A) (j : json)
  : result (option A) :=
  match j with
  | JNull => Ok None
  | _ => fmap Some (v j)
  end.

Definition dump_list {A : Type} (d : A -> json) (l : list A) : json :=
  JArr (map d l).

Definition dump_dict {V : Type} (d : V -> json) (m : Py.dict V) : json :=
  JObj (map (fun kv => (fst kv, d (snd kv))) m).

Definition dump_optional {A : Type} (d : A -> json) (o : option A) : json :=
  match o with
  | Some a => d a
  | None => JNull
  end.

(** A model is validated from a dict; keys that name no field are ignored. *)
Definition model_fields (j : json) : result (Py.dict json) :=
  match j with
  | JObj d => Ok d
  | _ => type_error "model_attributes_type"
  end.

(** A required field ([...] or no default), looked up under its wire name
    and validated as its annotation says. *)
Definition required {A : Type} (d : Py.dict json) (name : string)
  (v : json -> result A) : result A :=
  match Py.dict_get name d with
  | Some j => at_loc name (v j)
  | None => Raise (ValidationError [name] "missing")
  end.

(** A field with a default: the default stands when the key is absent (it is
    not validated). *)
Definition with_default {A : Type} (d : Py.dict json) (name : string)
  (v : json -> result A) (default : A) : result A :=
  match Py.dict_get name d with
  | Some j => at_loc name (v j)
  | None => Ok default
  end.

End Pydantic.

Import Pydantic.

(** * models.py *)

(** ** Component schemas

    The scalar wire types are annotated [str]: the annotation carries a
    description and an example, and no constraint. *)

Definition Address : Type := string.
Definition TokenAmount : Type := string.
Definition BigUint : Type := string.
Definition OrderUID : Type := string.

Definition validate_Address : json -> result Address := validate_str.
Definition validate_TokenAmount : json -> result TokenAmount := validate_str.
Definition validate_BigUint : json -> result BigUint := validate_str.
Definition validate_OrderUID : json -> result OrderUID := validate_str.

(** [DateTime]: a [datetime.datetime].  The model reads the wire form the
    field describes, an ISO 8601 date time string: date, [T] or a blank,
    hours and minutes, optional seconds with up to six fractional digits kept,
    and an optional zone ([Z] or a signed [HH:MM]).  (pydantic also reads a
    number as a Unix timestamp; the model rejects it.) *)
Module DateTime.

Record t : Type := mk {
  year : Z;
  month : Z;
  day : Z;
  hour : Z;
  minute : Z;
  second : Z;
  microsecond : Z;
  utcoffset : option Z
}.

Definition parsing_error {A : Type} : result A := type_error "datetime_parsing".

Definition digits (n : nat) (s : list ascii) : result (Z * list ascii) :=
  let ds := firstn n s in
  if (List.length ds =? n)%nat
     && forallb Py.isdigit ds
  then Ok (digits_value ds, skipn n s)
  else parsing_error.

Definition expect (cs : list ascii) (s : list ascii) : result (list ascii) :=
  match s with
  | c :: rest => if existsb (Ascii.eqb c) cs then Ok rest else parsing_error
  | [] => parsing_error
  end.

Definition is_leap (y : Z) : bool :=
  ((y mod 4 =? 0) && negb (y mod 100 =? 0)) || (y mod 400 =? 0).

Definition days_in_month (y m : Z) : Z :=
  if m =? 2 then (if is_leap y then 29 else 28)
  else if (m =? 4) || (m =? 6) || (m =? 9) || (m =? 11) then 30
  else 31.

Definition in_range (lo x hi : Z) : result unit :=
  if (lo <=? x) && (x <=? hi) then Ok tt else parsing_error.

Definition seconds (s : list ascii) : result (Z * Z * list ascii) :=
  match s with
  | c :: rest =>
      if Ascii.eqb c ":"
      then
        '(sec, rest) <- digits 2 rest ;;
        match rest with
        | c' :: rest' =>
            if Ascii.eqb c' "."
            then
              let '(frac, rest'') := span_digits rest' in
              match frac with
              | [] => parsing_error
              | _ =>
                  let kept := firstn 6 frac in
                  Ok (sec,
                      digits_value kept * 10 ^ (6 - Z.of_nat (List.length kept)),
                      rest'')
              end
            else Ok (sec, 0, rest)
        | [] => Ok (sec, 0, rest)
        end
      else Ok (0, 0, s)
  | [] => Ok (0, 0, s)
  end.

Definition zone (s : list ascii) : result (option Z) :=
  match s with
  | [] => Ok None
  | c :: rest =>
      if (Ascii.eqb c "Z" || Ascii.eqb c "z")%bool
      then match rest with [] => Ok (Some 0) | _ => parsing_error end
      else
        '(negative, rest) <-
          (if Ascii.eqb c "+" then Ok (false, rest)
           else if Ascii.eqb c "-" then Ok (true, rest)
           else parsing_error) ;;
        '(h, rest) <- digits 2 rest ;;
        rest <- expect [":"%char] rest ;;
        '(m, rest) <- digits 2 rest ;;
        _ <- in_range 0 h 23 ;;
        _ <- in_range 0 m 59 ;;
        match rest with
        | [] => let off := 3600 * h + 60 * m in Ok (Some (if negative then - off else off))
        | _ => parsing_error
        end
  end.

Definition parse (s : string) : result t :=
  let s := list_ascii_of_string s in
  '(y, s) <- digits 4 s ;;
  s <- expect ["-"%char] s ;;
  '(mo, s) <- digits 2 s ;;
  s <- expect ["-"%char] s ;;
  '(d, s) <- digits 2 s ;;
  s <- expect ["T"%char; "t"%char; " "%char; "_"%char] s ;;
  '(h, s) <- digits 2 s ;;
  s <- expect [":"%char] s ;;
  '(mi, s) <- digits 2 s ;;
  '(sec, us, s) <- seconds s ;;
  tz <- zone s ;;
  _ <- in_range 1 y 9999 ;;
  _ <- in_range 1 mo 12 ;;
  _ <- in_range 1 d (days_in_month y mo) ;;
  _ <- in_range 0 h 23 ;;
  _ <- in_range 0 mi 59 ;;
  _ <- in_range 0 sec 59 ;;
  Ok (mk y mo d h mi sec us tz).

Definition validate (j : json) : result t :=
  match j with
  | JStr s => parse s
  | _ => type_error "datetime_type"
  end.

End DateTime.

Module Interaction.

Record t : Type := mk {
  target : Address;
  value : TokenAmount;
  callData : string
}.

Definition validate (j : json) : result t :=
  d <- model_fields j ;;
  target <- required d "target" validate_Address ;;
  value <- required d "value" validate_TokenAmount ;;
  callData <- required d "callData" validate_str ;;
  Ok (mk target value callData).

Definition dump (x : t) : json :=
  JObj [("target", JStr (target x));
        ("value", JStr (value x));
        ("callData", JStr (callData x))].

End Interaction.

Module Quote.

Record t : Type := mk {
  sellAmount : TokenAmount;
  buyAmount : TokenAmount;
  fee : TokenAmount;
  solver : Address
}.

Definition validate (j : json) : result t :=
  d <- model_fields j ;;
  sellAmount <- required d "sellAmount" validate_TokenAmount ;;
  buyAmount <- required d "buyAmount" validate_TokenAmount ;;
  fee <- required d "fee" validate_TokenAmount ;;
  solver <- required d "solver" validate_Address ;;
  Ok (mk sellAmount buyAmount fee solver).

Definition dump (x : t) : json :=
  JObj [("sellAmount", JStr (sellAmount x));
        ("buyAmount", JStr (buyAmount x));
        ("fee", JStr (fee x));
        ("solver", JStr (solver x))].

End Quote.

(** ** FeePolicy schemas (a discriminated union)

    The [kind] field of a variant is a one-valued [Literal]: it is checked
    when the variant is validated and written when it is sent, and it is not
    stored. *)

Module SurplusFee.

Record t : Type := mk {
  maxVolumeFactor : float;
  factor : float
}.

Definition validate (j : json) : result t :=
  d <- model_fields j ;;
  _ <- required d "kind" (validate_literal [("surplus", tt)]) ;;
  maxVolumeFactor <- required d "maxVolumeFactor" validate_float ;;
  factor <- required d "factor" validate_float ;;
  Ok (mk maxVolumeFactor factor).

Definition dump (x : t) : json :=
  JObj [("kind", JStr "surplus");
        ("maxVolumeFactor", dump_float (maxVolumeFactor x));
        ("factor", dump_float (factor x))].

End SurplusFee.

Module PriceImprovement.

Record t : Type := mk {
  maxVolumeFactor : float;
  factor : float;
  quote : Quote.t
}.

Definition validate (j : json) : result t :=
  d <- model_fields j ;;
  _ <- required d "kind" (validate_literal [("priceImprovement", tt)]) ;;
  maxVolumeFactor <- required d "maxVolumeFactor" validate_float ;;
  factor <- required d "factor" validate_float ;;
  quote <- required d "quote" Quote.validate ;;
  Ok (mk maxVolumeFactor factor quote).

Definition dump (x : t) : json :=
  JObj [("kind", JStr "priceImprovement");
        ("maxVolumeFactor", dump_float (maxVolumeFactor x));
        ("factor", dump_float (factor x));
        ("quote", Quote.dump (quote x))].

End PriceImprovement.

Module VolumeFee.

Record t : Type := mk {
  factor : float
}.

Definition validate (j : json) : result t :=
  d <- model_fields j ;;
  _ <- required d "kind" (validate_literal [("volume", tt)]) ;;
  factor <- required d "factor" validate_float ;;
  Ok (mk factor).

Definition dump (x : t) : json :=
  JObj [("kind", JStr "volume");
        ("factor", dump_float (factor x))].

End VolumeFee.

(** [Annotated[Union[SurplusFee, PriceImprovement, VolumeFee],
    Field(discriminator="kind")]]: the tag is read first and selects the one
    variant that is validated. *)
Module FeePolicy.

Inductive t : Type :=
| OfSurplusFee (f : SurplusFee.t)
| OfPriceImprovement (f : PriceImprovement.t)
| OfVolumeFee (f : VolumeFee.t).

(** The tag each variant is declared with. *)
Definition kind (x : t) : string :=
  match x with
  | OfSurplusFee _ => "surplus"
  | OfPriceImprovement _ => "priceImprovement"
  | OfVolumeFee _ => "volume"
  end.

Definition validate (j : json) : result t :=
  d <- model_fields j ;;
  match Py.dict_get "kind" d with
  | None => type_error "union_tag_not_found"
  | Some (JStr tag) =>
      if String.eqb tag "surplus"
      then at_loc "surplus" (fmap OfSurplusFee (SurplusFee.validate j))
      else if String.eqb tag "priceImprovement"
      then at_loc "priceImprovement" (fmap OfPriceImprovement (PriceImprovement.validate j))
      else if String.eqb tag "volume"
      then at_loc "volume" (fmap OfVolumeFee (VolumeFee.validate j))
      else type_error "union_tag_invalid"
  | Some _ => type_error "union_tag_invalid"
  end.

Definition dump (x : t) : json :=
  match x with
  | OfSurplusFee f => SurplusFee.dump f
  | OfPriceImprovement f => PriceImprovement.dump f
  | OfVolumeFee f => VolumeFee.dump f
  end.

End FeePolicy.

(** ** The [Literal] field types *)

(** [Literal["buy", "sell"]]. *)
Module Side.
Inductive t : Type := buy | sell.
Definition choices : list (string * t) := [("buy", buy); ("sell", sell)].
Definition str (x : t) : string :=
  match x with buy => "buy" | sell => "sell" end.
Definition validate : json -> result t := validate_literal choices.
Definition dump (x : t) : json := JStr (str x).
End Side.

(** [Literal["erc20", "internal", "external"]]. *)
Module SellTokenSource.
Inductive t : Type := erc20 | internal | external.
Definition choices : list (string * t) :=
  [("erc20", erc20); ("internal", internal); ("external", external)].
Definition str (x : t) : string :=
  match x with erc20 => "erc20" | internal => "internal" | external => "external" end.
Definition validate : json -> result t := validate_literal choices.
Definition dump (x : t) : json := JStr (str x).
End SellTokenSource.

(** [Literal["erc20", "internal"]]. *)
Module BuyTokenSource.
Inductive t : Type := erc20 | internal.
Definition choices : list (string * t) := [("erc20", erc20); ("internal", internal)].
Definition str (x : t) : string :=
  match x with erc20 => "erc20" | internal => "internal" end.
Definition validate : json -> result t := validate_literal choices.
Definition dump (x : t) : json := JStr (str x).
End BuyTokenSource.

(** [Literal["market", "limit"]]. *)
Module OrderClass.
Inductive t : Type := market | limit.
Definition choices : list (string * t) := [("market", market); ("limit", limit)].
Definition str (x : t) : string :=
  match x with market => "market" | limit => "limit" end.
Definition validate : json -> result t := validate_literal choices.
Definition dump (x : t) : json := JStr (str x).
End OrderClass.

(** [Literal["eip712", "ethsign", "presign", "eip1271"]]. *)
Module SigningScheme.
Inductive t : Type := eip712 | ethsign | presign | eip1271.
Definition choices : list (string * t) :=
  [("eip712", eip712); ("ethsign", ethsign); ("presign", presign); ("eip1271", eip1271)].
Definition str (x : t) : string :=
  match x with
  | eip712 => "eip712" | ethsign => "ethsign" | presign => "presign" | eip1271 => "eip1271"
  end.
Definition validate : json -> result t := validate_literal choices.
Definition dump (x : t) : json := JStr (str x).
End SigningScheme.

Module JitOrder.

Record t : Type := mk {
  sellToken : Address;
  buyToken : Address;
  sellAmount : TokenAmount;
  buyAmount : TokenAmount;
  executedAmount : TokenAmount;
  receiver : Address;
  validTo : Z;
  side : Side.t;
  partiallyFillable : bool;
  sellTokenSource : SellTokenSource.t;
  buyTokenSource : BuyTokenSource.t;
  appData : string;
  signature : string;
  signingScheme : SigningScheme.t
}.

Definition validate (j : json) : result t :=
  d <- model_fields j ;;
  sellToken <- required d "sellToken" validate_Address ;;
  buyToken <- required d "buyToken" validate_Address ;;
  sellAmount <- required d "sellAmount" validate_TokenAmount ;;
  buyAmount <- required d "buyAmount" validate_TokenAmount ;;
  executedAmount <- required d "executedAmount" validate_TokenAmount ;;
  receiver <- required d "receiver" validate_Address ;;
  validTo <- required d "validTo" validate_int ;;
  side <- required d "side" Side.validate ;;
  partiallyFillable <- required d "partiallyFillable" validate_bool ;;
  sellTokenSource <- required d "sellTokenSource" SellTokenSource.validate ;;
  buyTokenSource <- required d "buyTokenSource" BuyTokenSource.validate ;;
  appData <- required d "appData" validate_str ;;
  signature <- required d "signature" validate_str ;;
  signingScheme <- required d "signingScheme" SigningScheme.validate ;;
  Ok (mk sellToken buyToken sellAmount buyAmount executedAmount receiver validTo side
         partiallyFillable sellTokenSource buyTokenSource appData signature
         signingScheme).

Definition dump (x : t) : json :=
  JObj [("sellToken", JStr (sellToken x));
        ("buyToken", JStr (buyToken x));
        ("sellAmount", JStr (sellAmount x));
        ("buyAmount", JStr (buyAmount x));
        ("executedAmount", JStr (executedAmount x));
        ("receiver", JStr (receiver x));
        ("validTo", JInt (validTo x));
        ("side", Side.dump (side x));
        ("partiallyFillable", JBool (partiallyFillable x));
        ("sellTokenSource", SellTokenSource.dump (sellTokenSource x));
        ("buyTokenSource", BuyTokenSource.dump (buyTokenSource x));
        ("appData", JStr (appData x));
        ("signature", JStr (signature x));
        ("signingScheme", SigningScheme.dump (signingScheme x))].

End JitOrder.

Module Order.

(** [klass] is declared with [alias="class"]: the field is read from, and
    sent under, the key [class]. *)
Record t : Type := mk {
  uid : OrderUID;
  sellToken : Address;
  buyToken : Address;
  sellAmount : TokenAmount;
  buyAmount : TokenAmount;
  created : string;
  validTo : Z;
  kind : Side.t;
  receiver : Address;
  owner : Address;
  partiallyFillable : bool;
  executed : TokenAmount;
  preInteractions : list Interaction.t;
  postInteractions : list Interaction.t;
  sellTokenBalance : SellTokenSource.t;
  buyTokenBalance : BuyTokenSource.t;
  klass : OrderClass.t;
  appData : string;
  signingScheme : SigningScheme.t;
  signature : string;
  protocolFees : list FeePolicy.t;
  quote : option Quote.t
}.

Definition validate (j : json) : result t :=
  d <- model_fields j ;;
  uid <- required d "uid" validate_OrderUID ;;
  sellToken <- required d "sellToken" validate_Address ;;
  buyToken <- required d "buyToken" validate_Address ;;
  sellAmount <- required d "sellAmount" validate_TokenAmount ;;
  buyAmount <- required d "buyAmount" validate_TokenAmount ;;
  created <- required d "created" validate_str ;;
  validTo <- required d "validTo" validate_int ;;
  kind <- required d "kind" Side.validate ;;
  receiver <- required d "receiver" validate_Address ;;
  owner <- required d "owner" validate_Address ;;
  partiallyFillable <- required d "partiallyFillable" validate_bool ;;
  executed <- required d "executed" validate_TokenAmount ;;
  preInteractions <- required d "preInteractions" (validate_list Interaction.validate) ;;
  postInteractions <- required d "postInteractions" (validate_list Interaction.validate) ;;
  sellTokenBalance <- required d "sellTokenBalance" SellTokenSource.validate ;;
  buyTokenBalance <- required d "buyTokenBalance" BuyTokenSource.validate ;;
  klass <- required d "class" OrderClass.validate ;;
  appData <- required d "appData" validate_str ;;
  signingScheme <- required d "signingScheme" SigningScheme.validate ;;
  signature <- required d "signature" validate_str ;;
  protocolFees <- required d "protocolFees" (validate_list FeePolicy.validate) ;;
  quote <- with_default d "quote" (validate_optional Quote.validate) None ;;
  Ok (mk uid sellToken buyToken sellAmount buyAmount created validTo kind receiver
         owner partiallyFillable executed preInteractions postInteractions
         sellTokenBalance buyTokenBalance klass appData signingScheme signature
         protocolFees quote).

Definition dump (x : t) : json :=
  JObj [("uid", JStr (uid x));
        ("sellToken", JStr (sellToken x));
        ("buyToken", JStr (buyToken x));
        ("sellAmount", JStr (sellAmount x));
        ("buyAmount", JStr (buyAmount x));
        ("created", JStr (created x));
        ("validTo", JInt (validTo x));
        ("kind", Side.dump (kind x));
        ("receiver", JStr (receiver x));
        ("owner", JStr (owner x));
        ("partiallyFillable", JBool (partiallyFillable x));
        ("executed", JStr (executed x));
        ("preInteractions", dump_list Interaction.dump (preInteractions x));
        ("postInteractions", dump_list Interaction.dump (postInteractions x));
        ("sellTokenBalance", SellTokenSource.dump (sellTokenBalance x));
        ("buyTokenBalance", BuyTokenSource.dump (buyTokenBalance x));
        ("class", OrderClass.dump (klass x));
        ("appData", JStr (appData x));
        ("signingScheme", SigningScheme.dump (signingScheme x));
        ("signature", JStr (signature x));
        ("protocolFees", dump_list FeePolicy.dump (protocolFees x));
        ("quote", dump_optional Quote.dump (quote x))].

End Order.

Module Calldata.

Record t : Type := mk {
  internalized : string;
  uninternalized : string
}.

Definition dump (x : t) : json :=
  JObj [("internalized", JStr (internalized x));
        ("uninternalized", JStr (uninternalized x))].

End Calldata.

(** ** Quote response schemas *)

Module QuoteResponse.

Record t : Type := mk {
  clearingPrices : Py.dict BigUint;
  preInteractions : list Interaction.t;
  interactions : list Interaction.t;
  solver : Address;
  gas : Z;
  txOrigin : option Address;
  jitOrders : list JitOrder.t
}.

Definition validate (j : json) : result t :=
  d <- model_fields j ;;
  clearingPrices <- required d "clearingPrices" (validate_dict validate_BigUint) ;;
  preInteractions <- required d "preInteractions" (validate_list Interaction.validate) ;;
  interactions <- required d "interactions" (validate_list Interaction.validate) ;;
  solver <- required d "solver" validate_Address ;;
  gas <- required d "gas" validate_int ;;
  txOrigin <- with_default d "txOrigin" (validate_optional validate_Address) None ;;
  jitOrders <- required d "jitOrders" (validate_list JitOrder.validate) ;;
  Ok (mk clearingPrices preInteractions interactions solver gas txOrigin jitOrders).

Definition dump (x : t) : json :=
  JObj [("clearingPrices", dump_dict JStr (clearingPrices x));
        ("preInteractions", dump_list Interaction.dump (preInteractions x));
        ("interactions", dump_list Interaction.dump (interactions x));
        ("solver", JStr (solver x));
        ("gas", JInt (gas x));
        ("txOrigin", dump_optional JStr (txOrigin x));
        ("jitOrders", dump_list JitOrder.dump (jitOrders x))].

End QuoteResponse.

Module LegacyQuoteResponse.

Record t : Type := mk {
  amount : TokenAmount;
  interactions : list Interaction.t;
  solver : Address;
  gas : Z;
  txOrigin : option Address
}.

Definition validate (j : json) : result t :=
  d <- model_fields j ;;
  amount <- required d "amount" validate_TokenAmount ;;
  interactions <- required d "interactions" (validate_list Interaction.validate) ;;
  solver <- required d "solver" validate_Address ;;
  gas <- required d "gas" validate_int ;;
  txOrigin <- with_default d "txOrigin" (validate_optional validate_Address) None ;;
  Ok (mk amount interactions solver gas txOrigin).

Definition dump (x : t) : json :=
  JObj [("amount", JStr (amount x));
        ("interactions", dump_list Interaction.dump (interactions x));
        ("solver", JStr (solver x));
        ("gas", JInt (gas x));
        ("txOrigin", dump_optional JStr (txOrigin x))].

End LegacyQuoteResponse.

Module Error.

Record t : Type := mk {
  kind : string;
  description : string
}.

Definition validate (j : json) : result t :=
  d <- model_fields j ;;
  kind <- required d "kind" validate_str ;;
  description <- required d "description" validate_str ;;
  Ok (mk kind description).

Definition dump (x : t) : json :=
  JObj [("kind", JStr (kind x));
        ("description", JStr (description x))].

End Error.

Module Token.

Record t : Type := mk {
  address : Address;
  price : option TokenAmount;
  trusted : bool
}.

Definition validate (j : json) : result t :=
  d <- model_fields j ;;
  address <- required d "address" validate_Address ;;
  price <- with_default d "price" (validate_optional validate_TokenAmount) None ;;
  trusted <- required d "trusted" validate_bool ;;
  Ok (mk address price trusted).

Definition dump (x : t) : json :=
  JObj [("address", JStr (address x));
        ("price", dump_optional JStr (price x));
        ("trusted", JBool (trusted x))].

End Token.

Module SolutionOrderDetail.

Record t : Type := mk {
  side : Side.t;
  sellToken : Address;
  buyToken : Address;
  limitSell : TokenAmount;
  limitBuy : TokenAmount;
  executedSell : TokenAmount;
  executedBuy : TokenAmount
}.

Definition validate (j : json) : result t :=
  d <- model_fields j ;;
  side <- required d "side" Side.validate ;;
  sellToken <- required d "sellToken" validate_Address ;;
  buyToken <- required d "buyToken" validate_Address ;;
  limitSell <- required d "limitSell" validate_TokenAmount ;;
  limitBuy <- required d "limitBuy" validate_TokenAmount ;;
  executedSell <- required d "executedSell" validate_TokenAmount ;;
  executedBuy <- required d "executedBuy" validate_TokenAmount ;;
  Ok (mk side sellToken buyToken limitSell limitBuy executedSell executedBuy).

Definition dump (x : t) : json :=
  JObj [("side", Side.dump (side x));
        ("sellToken", JStr (sellToken x));
        ("buyToken", JStr (buyToken x));
        ("limitSell", JStr (limitSell x));
        ("limitBuy", JStr (limitBuy x));
        ("executedSell", JStr (executedSell x));
        ("executedBuy", JStr (executedBuy x))].

End SolutionOrderDetail.

(** ** Reveal endpoint schemas *)

Module RevealRequest.

Record t : Type := mk {
  solutionId : Z;
  auctionId : Z
}.

Definition validate (j : json) : result t :=
  d <- model_fields j ;;
  solutionId <- required d "solutionId" validate_int ;;
  auctionId <- required d "auctionId" validate_int ;;
  Ok (mk solutionId auctionId).

End RevealRequest.

Module RevealResponse.

Record t : Type := mk {
  calldata : Calldata.t
}.

Definition dump (x : t) : json :=
  JObj [("calldata", Calldata.dump (calldata x))].

End RevealResponse.

(** ** Settle endpoint schemas *)

Module SettleRequest.

Record t : Type := mk {
  solutionId : Z;
  submissionDeadlineLatestBlock : Z;
  auctionId : Z
}.

Definition validate (j : json) : result t :=
  d <- model_fields j ;;
  solutionId <- required d "solutionId" validate_int ;;
  submissionDeadlineLatestBlock <-
    required d "submissionDeadlineLatestBlock" validate_int ;;
  auctionId <- required d "auctionId" validate_int ;;
  Ok (mk solutionId submissionDeadlineLatestBlock auctionId).

End SettleRequest.

(** ** Models of the incoming /solve request body *)

Module SolverTokenBalance.

Record t : Type := mk {
  balance : TokenAmount
}.

Definition validate (j : json) : result t :=
  d <- model_fields j ;;
  balance <- required d "balance" validate_TokenAmount ;;
  Ok (mk balance).

End SolverTokenBalance.

Module SolverLiquidity.

Record t : Type := mk {
  address : Address;
  fee : string;
  gasEstimate : TokenAmount;
  id : string;
  kind : string;
  router : Address;
  tokens : Py.dict SolverTokenBalance.t
}.

Definition validate (j : json) : result t :=
  d <- model_fields j ;;
  address <- required d "address" validate_Address ;;
  fee <- required d "fee" validate_str ;;
  gasEstimate <- required d "gasEstimate" validate_TokenAmount ;;
  id <- required d "id" validate_str ;;
  kind <- required d "kind" validate_str ;;
  router <- required d "router" validate_Address ;;
  tokens <- required d "tokens" (validate_dict SolverTokenBalance.validate) ;;
  Ok (mk address fee gasEstimate id kind router tokens).

End SolverLiquidity.

Module SolverTokenInfo.

Record t : Type := mk {
  availableBalance : TokenAmount;
  decimals : option Z;
  referencePrice : option TokenAmount;
  symbol : option string;
  trusted : bool
}.

Definition validate (j : json) : result t :=
  d <- model_fields j ;;
  availableBalance <- required d "availableBalance" validate_TokenAmount ;;
  decimals <- with_default d "decimals" (validate_optional validate_int) None ;;
  referencePrice <-
    with_default d "referencePrice" (validate_optional validate_TokenAmount) None ;;
  symbol <- with_default d "symbol" (validate_optional validate_str) None ;;
  trusted <- required d "trusted" validate_bool ;;
  Ok (mk availableBalance decimals referencePrice symbol trusted).

End SolverTokenInfo.

Module SolverOrder.

(** The bare [List] fields hold items of any type, kept as they came. *)
Record t : Type := mk {
  appData : string;
  buyAmount : TokenAmount;
  buyToken : Address;
  buyTokenDestination : string;
  klass : OrderClass.t;
  fullBuyAmount : TokenAmount;
  fullSellAmount : TokenAmount;
  kind : Side.t;
  owner : Address;
  partiallyFillable : bool;
  postInteractions : list json;
  preInteractions : list json;
  sellAmount : TokenAmount;
  sellToken : Address;
  sellTokenSource : string;
  signature : string;
  signingScheme : string;
  uid : OrderUID;
  validTo : Z;
  receiver : option Address;
  created : option string;
  executed : option TokenAmount;
  protocolFees : list json
}.

Definition validate_Any (j : json) : result json := Ok j.

Definition validate (j : json) : result t :=
  d <- model_fields j ;;
  appData <- required d "appData" validate_str ;;
  buyAmount <- required d "buyAmount" validate_TokenAmount ;;
  buyToken <- required d "buyToken" validate_Address ;;
  buyTokenDestination <- required d "buyTokenDestination" validate_str ;;
  klass <- required d "class" OrderClass.validate ;;
  fullBuyAmount <- required d "fullBuyAmount" validate_TokenAmount ;;
  fullSellAmount <- required d "fullSellAmount" validate_TokenAmount ;;
  kind <- required d "kind" Side.validate ;;
  owner <- required d "owner" validate_Address ;;
  partiallyFillable <- required d "partiallyFillable" validate_bool ;;
  postInteractions <- with_default d "postInteractions" (validate_list validate_Any) [] ;;
  preInteractions <- with_default d "preInteractions" (validate_list validate_Any) [] ;;
  sellAmount <- required d "sellAmount" validate_TokenAmount ;;
  sellToken <- required d "sellToken" validate_Address ;;
  sellTokenSource <- required d "sellTokenSource" validate_str ;;
  signature <- required d "signature" validate_str ;;
  signingScheme <- required d "signingScheme" validate_str ;;
  uid <- required d "uid" validate_OrderUID ;;
  validTo <- required d "validTo" validate_int ;;
  receiver <- with_default d "receiver" (validate_optional validate_Address) None ;;
  created <- with_default d "created" (validate_optional validate_str) None ;;
  executed <- with_default d "executed" (validate_optional validate_TokenAmount) None ;;
  protocolFees <- with_default d "protocolFees" (validate_list validate_Any) [] ;;
  Ok (mk appData buyAmount buyToken buyTokenDestination klass fullBuyAmount
         fullSellAmount kind owner partiallyFillable postInteractions preInteractions
         sellAmount sellToken sellTokenSource signature signingScheme uid validTo
         receiver created executed protocolFees).

End SolverOrder.

(** [int(v)] for a JSON value [v]. *)
Definition int_of_object (v : json) : result Z :=
  match v with
  | JBool b => Ok (if b then 1 else 0)
  | JInt n => Ok n
  | JFloat x => Py.int_of_float x
  | JStr s => Py.int_of_str s
  | JNull | JArr _ | JObj _ => Raise TypeError
  end.

(** A [field_validator(..., mode="before")]: the function sees the raw input
    and its result is validated as the annotation says.  A [ValueError] it
    raises becomes a validation error; any other exception escapes. *)
Definition before_validator {A : Type} (f : json -> result json)
  (v : json -> result A) (j : json) : result A :=
  match f j with
  | Ok j' => v j'
  | Raise ValueError => type_error "value_error"
  | Raise e => Raise e
  end.

(** pydantic validates every field of a model and collects the validation
    errors; an exception of another kind ends the validation where it is
    raised, whatever errors the fields before it have. *)
Definition escaping {A : Type} (r : result A) : result unit :=
  match r with
  | Ok _ | Raise (ValidationError _ _) => Ok tt
  | Raise e => Raise e
  end.

Module SolverRequest.

Record t : Type := mk {
  deadline : DateTime.t;
  effectiveGasPrice : TokenAmount;
  id : option Z;
  liquidity : list SolverLiquidity.t;
  orders : list SolverOrder.t;
  surplusCapturingJitOrderOwners : list Address;
  tokens : Py.dict SolverTokenInfo.t
}.

Definition anystr_to_int (v : json) : result json :=
  match v with
  | JNull => Ok v
  | _ => fmap JInt (int_of_object v)
  end.

Definition validate_id : json -> result (option Z) :=
  before_validator anystr_to_int (validate_optional validate_int).

(** [id] is the only field whose validation can raise an exception that is
    no validation error. *)
Definition validate (j : json) : result t :=
  d <- model_fields j ;;
  _ <- escaping (with_default d "id" validate_id None) ;;
  deadline <- required d "deadline" DateTime.validate ;;
  effectiveGasPrice <- required d "effectiveGasPrice" validate_TokenAmount ;;
  id <- with_default d "id" validate_id None ;;
  liquidity <- required d "liquidity" (validate_list SolverLiquidity.validate) ;;
  orders <- required d "orders" (validate_list SolverOrder.validate) ;;
  surplusCapturingJitOrderOwners <-
    required d "surplusCapturingJitOrderOwners" (validate_list validate_Address) ;;
  tokens <- required d "tokens" (validate_dict SolverTokenInfo.validate) ;;
  Ok (mk deadline effectiveGasPrice id liquidity orders
         surplusCapturingJitOrderOwners tokens).

End SolverRequest.

(** ** Models of the outgoing /solve response body *)

Module TradeFulfillment.

Record t : Type := mk {
  order : OrderUID;
  executedAmount : TokenAmount;
  fee : option TokenAmount
}.

Definition validate (j : json) : result t :=
  d <- model_fields j ;;
  _ <- with_default d "kind" (validate_literal [("fulfillment", tt)]) tt ;;
  order <- required d "order" validate_OrderUID ;;
  executedAmount <- required d "executedAmount" validate_TokenAmount ;;
  fee <- with_default d "fee" (validate_optional validate_TokenAmount) None ;;
  Ok (mk order executedAmount fee).

Definition dump (x : t) : json :=
  JObj [("kind", JStr "fulfillment");
        ("order", JStr (order x));
        ("executedAmount", JStr (executedAmount x));
        ("fee", dump_optional JStr (fee x))].

End TradeFulfillment.

Module LiquidityInteraction.

Record t : Type := mk {
  internalize : bool;
  id : string;
  inputToken : Address;
  outputToken : Address;
  inputAmount : TokenAmount;
  outputAmount : TokenAmount
}.

Definition validate (j : json) : result t :=
  d <- model_fields j ;;
  _ <- with_default d "kind" (validate_literal [("liquidity", tt)]) tt ;;
  internalize <- required d "internalize" validate_bool ;;
  id <- required d "id" validate_str ;;
  inputToken <- required d "inputToken" validate_Address ;;
  outputToken <- required d "outputToken" validate_Address ;;
  inputAmount <- required d "inputAmount" validate_TokenAmount ;;
  outputAmount <- required d "outputAmount" validate_TokenAmount ;;
  Ok (mk internalize id inputToken outputToken inputAmount outputAmount).

Definition dump (x : t) : json :=
  JObj [("kind", JStr "liquidity");
        ("internalize", JBool (internalize x));
        ("id", JStr (id x));
        ("inputToken", JStr (inputToken x));
        ("outputToken", JStr (outputToken x));
        ("inputAmount", JStr (inputAmount x));
        ("outputAmount", JStr (outputAmount x))].

End LiquidityInteraction.

Module Solution.

Record t : Type := mk {
  id : Z;
  prices : Py.dict TokenAmount;
  trades : list TradeFulfillment.t;
  interactions : list LiquidityInteraction.t;
  gas : option Z
}.

Definition validate (j : json) : result t :=
  d <- model_fields j ;;
  id <- required d "id" validate_int ;;
  prices <- required d "prices" (validate_dict validate_TokenAmount) ;;
  trades <- required d "trades" (validate_list TradeFulfillment.validate) ;;
  interactions <- required d "interactions" (validate_list LiquidityInteraction.validate) ;;
  gas <- with_default d "gas" (validate_optional validate_int) None ;;
  Ok (mk id prices trades interactions gas).

Definition dump (x : t) : json :=
  JObj [("id", JInt (id x));
        ("prices", dump_dict JStr (prices x));
        ("trades", dump_list TradeFulfillment.dump (trades x));
        ("interactions", dump_list LiquidityInteraction.dump (interactions x));
        ("gas", dump_optional JInt (gas x))].

End Solution.

Module SolveResponse.

Record t : Type := mk {
  solutions : list Solution.t
}.

Definition dump (x : t) : json :=
  JObj [("solutions", dump_list Solution.dump (solutions x))].

End SolveResponse.

(** * main.py *)

(** [f"0x{'1'*(39-len(str(index)))}{index}aBcDeF"]. *)
Definition get_mock_address (index : Z) : result Address :=
  digits <- Py.str_of_int index ;;
  written <- Py.str_of_int index ;;
  Ok ("0x" ++ Py.str_repeat "1" (39 - Py.len digits) ++ written ++ "aBcDeF").

(** ** GET /quote *)

(** The [if kind == "sell": ... else: ...] statement of [get_quote]: the
    values it leaves in the local variables [(buy_amount, sell_amount)]. *)
Definition get_quote_locals (kind : Side.t) (amount : TokenAmount)
  : result (TokenAmount * TokenAmount) :=
  match kind with
  | Side.sell =>
      n <- Py.int_of_str amount ;;
      buy_amount <- Py.str_of_int (n * 95 / 100) ;;
      let sell_amount := amount in
      Ok (buy_amount, sell_amount)
  | Side.buy =>
      n <- Py.int_of_str amount ;;
      sell_amount <- Py.str_of_int (n * 100 / 95) ;;
      let buy_amount := amount in
      Ok (buy_amount, sell_amount)
  end.

(** The handler: the statement above, then the [return], which reads neither
    local. *)
Definition get_quote (sellToken buyToken : Address) (kind : Side.t)
  (amount : TokenAmount) (deadline : DateTime.t) : result QuoteResponse.t :=
  '(buy_amount, sell_amount) <- get_quote_locals kind amount ;;
  solver <- get_mock_address 0 ;;
  Ok (QuoteResponse.mk
        (Py.dict_of_items [(sellToken, "1000000000000000000");
                           (buyToken, "950000000000000000")])
        []
        []
        solver
        150000
        None
        []).

(** ** POST /solve

    [request.orders[0] if request.orders else None] is [None] exactly for the
    empty list.  A pydantic model defines neither [__bool__] nor [__len__], so
    an order or a liquidity entry is always true, and
    [not first_order or not first_liquidity] holds exactly when one of the
    two is [None]. *)

Definition solve_auction (request : SolverRequest.t) : SolveResponse.t :=
  let first_order :=
    match SolverRequest.orders request with
    | o :: _ => Some o
    | [] => None
    end in
  let first_liquidity :=
    match SolverRequest.liquidity request with
    | l :: _ => Some l
    | [] => None
    end in
  match first_order, first_liquidity with
  | Some first_order, Some first_liquidity =>
      let mock_solution :=
        Solution.mk
          0
          (Py.dict_of_items
             [(SolverOrder.sellToken first_order, SolverOrder.buyAmount first_order);
              (SolverOrder.buyToken first_order, SolverOrder.sellAmount first_order)])
          [TradeFulfillment.mk
             (SolverOrder.uid first_order)
             (SolverOrder.sellAmount first_order)
             None]
          [LiquidityInteraction.mk
             false
             (SolverLiquidity.id first_liquidity)
             (SolverOrder.sellToken first_order)
             (SolverOrder.buyToken first_order)
             (SolverOrder.sellAmount first_order)
             (SolverOrder.buyAmount first_order)]
          (Some 250000) in
      SolveResponse.mk [mock_solution]
  | _, _ => SolveResponse.mk []
  end.

(** ** POST /reveal *)

Definition reveal_solution (request : RevealRequest.t) : RevealResponse.t :=
  RevealResponse.mk (Calldata.mk "0xdeadbeef1234" "0xfeedface5678").

(** ** The endpoints as FastAPI runs them

    The body is validated as the handler's parameter says (an error is
    located under [body]), the handler runs, and its result is sent as the
    [response_model] serializes it. *)

Definition post_solve (body : json) : result json :=
  request <- at_loc "body" (SolverRequest.validate body) ;;
  Ok (SolveResponse.dump (solve_auction request)).


(** ** POST /settle

    The handler prints one line and returns the empty object: the model
    returns what was printed and what was returned. *)

Definition settle_solution (request : SettleRequest.t) : result (string * json) :=
  solutionId <- Py.str_of_int (SettleRequest.solutionId request) ;;
  auctionId <- Py.str_of_int (SettleRequest.auctionId request) ;;
  Ok ("Accepted request to settle solution " ++ solutionId
        ++ " for auction " ++ auctionId ++ ".",
      JObj []).

Definition post_settle (body : json) : result (string * json) :=
  request <- at_loc "body" (SettleRequest.validate body) ;;
  settle_solution request.

(** ** GET /quote as FastAPI runs it

    Every parameter is declared [Query(...)]: required, read from the query
    string (its values are strings) and validated as its annotation says, an
    error located under [query]. *)

Definition query_param {A : Type} (query : Py.dict string) (name : string)
  (v : json -> result A) : result A :=
  match Py.dict_get name query with
  | Some s => at_loc "query" (at_loc name (v (JStr s)))
  | None => Raise (ValidationError ["query"; name] "missing")
  end.

Definition get_quote_route (query : Py.dict string) : result json :=
  sellToken <- query_param query "sellToken" validate_Address ;;
  buyToken <- query_param query "buyToken" validate_Address ;;
  kind <- query_param query "kind" Side.validate ;;
  amount <- query_param query "amount" validate_TokenAmount ;;
  deadline <- query_param query "deadline" DateTime.validate ;;
  response <- get_quote sellToken buyToken kind amount deadline ;;
  Ok (QuoteResponse.dump response).

(** ** What is sent

    FastAPI answers a validation error with status 422 and a body that lists
    every error of the request, each with the input it was found on.
    Starlette renders a JSON body with [allow_nan=False]: a NaN or an
    infinity in it raises [ValueError], as does an int that [str] does not
    write, and the request is then answered with status 500. *)

Fixpoint renders (j : json) : bool :=
  match j with
  | JNull | JBool _ | JStr _ => true
  | JInt n => is_ok (Py.str_of_int n)
  | JFloat x => is_finite x
  | JArr items => forallb renders items
  | JObj members => forallb (fun kv => renders (snd kv)) members
  end.

(** The inputs reported for a required field of a scalar type: the object
    that lacks the field, or the value that is not of the type. *)
Definition field_error_inputs {A : Type} (d : Py.dict json) (name : string)
  (v : json -> result A) : list json :=
  match Py.dict_get name d with
  | Some j => if is_ok (v j) then [] else [j]
  | None => [JObj d]
  end.


Definition settle_error_inputs (body : json) : list json :=
  match body with
  | JObj d =>
      field_error_inputs d "solutionId" validate_int
      ++ field_error_inputs d "submissionDeadlineLatestBlock" validate_int
      ++ field_error_inputs d "auctionId" validate_int
  | _ => [body]
  end.

(** The status code that is sent for the outcome [r] of a request whose
    validation errors report the inputs [error_inputs]. *)
Definition sent_status {A : Type} (error_inputs : list json) (r : result A) : Z :=
  match r with
  | Raise (ValidationError _ _) =>
      if forallb renders error_inputs then 422 else 500
  | _ => status_code r
  end.


Definition settle_status (body : json) : Z :=
  sent_status (settle_error_inputs body) (post_settle body).

(** ** A running service

    The module's only global is [app]: no handler reads or writes anything
    that outlives its request.  A run of the service is therefore the
    handlers applied to the requests in the order they arrive. *)

Inductive request : Type :=
| solve (r : SolverRequest.t)
| reveal (r : RevealRequest.t).

Inductive response : Type :=
| solved (r : SolveResponse.t)
| revealed (r : RevealResponse.t).

Definition handle (q : request) : response :=
  match q with
  | solve r => solved (solve_auction r)
  | reveal r => revealed (reveal_solution r)
  end.

Definition serve (qs : list request) : list response := map handle qs.

(** The solutions a run has produced, in order. *)
Definition produced (rs : list response) : list Solution.t :=
  flat_map (fun r => match r with
                     | solved s => SolveResponse.solutions s
                     | revealed _ => []
                     end) rs.

(** * Sample payloads

    Concrete requests used to run the definitions above. *)

(** An order of a solve request, with the given [validTo] and
    [partiallyFillable] members. *)
Definition sample_order_json_with (validTo partiallyFillable : json) : json :=
  JObj [("appData", JStr "0x00");
        ("buyAmount", JStr "950");
        ("buyToken", JStr "0xbb");
        ("buyTokenDestination", JStr "erc20");
        ("class", JStr "limit");
        ("fullBuyAmount", JStr "950");
        ("fullSellAmount", JStr "1000");
        ("kind", JStr "sell");
        ("owner", JStr "0xcc");
        ("partiallyFillable", partiallyFillable);
        ("sellAmount", JStr "1000");
        ("sellToken", JStr "0xaa");
        ("sellTokenSource", JStr "erc20");
        ("signature", JStr "0x");
        ("signingScheme", JStr "eip712");
        ("uid", JStr "0x01");
        ("validTo", validTo)].

Definition sample_order_json : json :=
  sample_order_json_with (JInt 1700000000) (JBool false).

Definition sample_liquidity_json : json :=
  JObj [("address", JStr "0xdd");
        ("fee", JStr "0.003");
        ("gasEstimate", JStr "90000");
        ("id", JStr "7");
        ("kind", JStr "constantProduct");
        ("router", JStr "0xee");
        ("tokens", JObj [("0xaa", JObj [("balance", JStr "5")]);
                         ("0xbb", JObj [("balance", JStr "6")])])].

(** A solve request without an [id], with the given order and the given
    [trusted] member of its token. *)
Definition sample_members_with (order trusted : json) : Py.dict json :=
  [("deadline", JStr "2025-08-06T15:18:31.814523Z");
   ("effectiveGasPrice", JStr "1");
   ("liquidity", JArr [sample_liquidity_json]);
   ("orders", JArr [order]);
   ("surplusCapturingJitOrderOwners", JArr []);
   ("tokens", JObj [("0xaa", JObj [("availableBalance", JStr "1");
                                   ("trusted", trusted)])])].

Definition sample_members : Py.dict json :=
  sample_members_with sample_order_json (JBool true).

(** The same request with its int and bool members written as strings. *)
Definition sample_members_as_strings : Py.dict json :=
  sample_members_with
    (sample_order_json_with (JStr "1700000000") (JStr "false"))
    (JStr "true").

(** FeePolicy payloads. *)
Definition surplus_without_factor : Py.dict json :=
  [("kind", JStr "surplus"); ("maxVolumeFactor", JFloat 0.25)].

Definition unknown_kind : Py.dict json :=
  [("kind", JStr "unknown"); ("maxVolumeFactor", JFloat 0.25); ("factor", JFloat 0.5)].

Definition untagged : Py.dict json :=
  [("maxVolumeFactor", JFloat 0.25); ("factor", JFloat 0.5)].

Definition sample_quote_json : json :=
  JObj [("sellAmount", JStr "1000"); ("buyAmount", JStr "950");
        ("fee", JStr "3"); ("solver", JStr "0xcc")].

(** Tagged [surplus], with every field of a priceImprovement. *)
Definition surplus_with_quote : Py.dict json :=
  [("kind", JStr "surplus"); ("maxVolumeFactor", JFloat 0.25); ("factor", JFloat 0.5);
   ("quote", sample_quote_json)].

Definition priceImprovement_payload : Py.dict json :=
  [("kind", JStr "priceImprovement"); ("maxVolumeFactor", JFloat 0.25);
   ("factor", JFloat 0.5); ("quote", sample_quote_json)].

(** Tagged [volume], with every field of a surplus. *)
Definition volume_with_maxVolumeFactor : Py.dict json :=
  [("kind", JStr "volume"); ("maxVolumeFactor", JFloat 0.25); ("factor", JFloat 0.5)].

(** The same request with no order and no liquidity. *)
Definition sample_empty_members : Py.dict json :=
  Py.dict_set "liquidity" (JArr []) (Py.dict_set "orders" (JArr []) sample_members).

Definition sample_order : SolverOrder.t :=
  SolverOrder.mk "0x00" "950" "0xbb" "erc20" OrderClass.limit "950" "1000"
    Side.sell "0xcc" false [] [] "1000" "0xaa" "erc20" "0x" "eip712" "0x01"
    1700000000 None None None [].

(** A buy order whose two amounts differ. *)
Definition sample_buy_order : SolverOrder.t :=
  SolverOrder.mk "0x00" "500" "0xaa" "erc20" OrderClass.market "500" "2000"
    Side.buy "0xcc" false [] [] "2000" "0xbb" "erc20" "0x" "eip712" "0x02"
    1700000000 None None None [].

Definition sample_liquidity : SolverLiquidity.t :=
  SolverLiquidity.mk "0xdd" "0.003" "90000" "7" "constantProduct" "0xee"
    [("0xaa", SolverTokenBalance.mk "5"); ("0xbb", SolverTokenBalance.mk "6")].

Definition sample_deadline : DateTime.t :=
  DateTime.mk 2025 8 6 15 18 31 814523 (Some 0).

Definition sample_request_of (orders : list SolverOrder.t)
  (liquidity : list SolverLiquidity.t) : SolverRequest.t :=
  SolverRequest.mk sample_deadline "1" None liquidity orders []
    [("0xaa", SolverTokenInfo.mk "1" None None None true)].

Definition sample_request : SolverRequest.t :=
  sample_request_of [sample_order] [sample_liquidity].

Definition sample_buy_request : SolverRequest.t :=
  sample_request_of [sample_buy_order; sample_order] [sample_liquidity].

(** An [Order] payload that leaves the optional [quote] out, with its order
    class under the given key. *)
Definition sample_Order_members_with (class_key : string) : Py.dict json :=
  [("uid", JStr "0x01");
   ("sellToken", JStr "0xaa");
   ("buyToken", JStr "0xbb");
   ("sellAmount", JStr "1000");
   ("buyAmount", JStr "950");
   ("created", JStr "123456");
   ("validTo", JInt 1700000000);
   ("kind", JStr "sell");
   ("receiver", JStr "0xcc");
   ("owner", JStr "0xcc");
   ("partiallyFillable", JBool false);
   ("executed", JStr "0");
   ("preInteractions", JArr []);
   ("postInteractions",
    JArr [JObj [("target", JStr "0xdd"); ("value", JStr "0"); ("callData", JStr "0x")]]);
   ("sellTokenBalance", JStr "erc20");
   ("buyTokenBalance", JStr "internal");
   (class_key, JStr "limit");
   ("appData", JStr "0x00");
   ("signingScheme", JStr "eip712");
   ("signature", JStr "0x");
   ("protocolFees",
    JArr [JObj [("kind", JStr "surplus"); ("maxVolumeFactor", JFloat 0.25);
                ("factor", JFloat 0.5)];
          JObj priceImprovement_payload;
          JObj [("kind", JStr "volume"); ("factor", JFloat 0.5)]])].

Definition sample_Order_members : Py.dict json := sample_Order_members_with "class".

Definition sample_Order_with (quote : option Quote.t) : Order.t :=
  Order.mk "0x01" "0xaa" "0xbb" "1000" "950" "123456" 1700000000 Side.sell "0xcc"
    "0xcc" false "0" [] [Interaction.mk "0xdd" "0" "0x"] SellTokenSource.erc20
    BuyTokenSource.internal OrderClass.limit "0x00" SigningScheme.eip712 "0x"
    [FeePolicy.OfSurplusFee (SurplusFee.mk 0.25 0.5);
     FeePolicy.OfPriceImprovement
       (PriceImprovement.mk 0.25 0.5 (Quote.mk "1000" "950" "3" "0xcc"));
     FeePolicy.OfVolumeFee (VolumeFee.mk 0.5)]
    quote.

Definition sample_Order : Order.t :=
  sample_Order_with (Some (Quote.mk "1000" "950" "3" "0xcc")).

(** A [Solution] payload that leaves out what has a default: the [gas] of the
    solution, the [kind] and the [fee] of its trade. *)
Definition solution_without_gas : json :=
  JObj [("id", JInt 0);
        ("prices", JObj [("0xaa", JStr "950"); ("0xbb", JStr "1000")]);
        ("trades", JArr [JObj [("order", JStr "0x01"); ("executedAmount", JStr "1000")]]);
        ("interactions", JArr [])].

Definition sample_Solution : Solution.t :=
  Solution.mk 0 [("0xaa", "950"); ("0xbb", "1000")]
    [TradeFulfillment.mk "0x01" "1000" None]
    [LiquidityInteraction.mk false "7" "0xaa" "0xbb" "1000" "950"]
    (Some 250000).

(** * Vocabulary of the properties *)


(** The member of a JSON object under a key. *)
Definition member (k : string) (j : json) : option json :=
  match j with
  | JObj d => Py.dict_get k d
  | _ => None
  end.

(** The wire form the interface description gives for a TokenAmount or
    BigUint, in its words: a decimal string with no leading zeros, no sign and
    no separators, denoting an integer in the range [0, 2^256-1].  It is
    stated here to be compared with what [validate_TokenAmount] accepts. *)
Definition described_amount (s : string) : bool :=
  let cs := list_ascii_of_string s in
  match cs with
  | [] => false
  | c :: rest =>
      forallb Py.isdigit cs
      && (negb (Ascii.eqb c "0") || match rest with [] => true | _ => false end)
      && (digits_value cs <=? 2 ^ 256 - 1)
  end.

(** The number a decimal numeral denotes, read digit by digit from the left
    as [int()] reads it, and the characters [str()] writes for it. *)
Fixpoint uint_value (acc : Z) (d : Decimal.uint) : Z :=
  match d with
  | Decimal.Nil => acc
  | Decimal.D0 d => uint_value (10 * acc + 0) d
  | Decimal.D1 d => uint_value (10 * acc + 1) d
  | Decimal.D2 d => uint_value (10 * acc + 2) d
  | Decimal.D3 d => uint_value (10 * acc + 3) d
  | Decimal.D4 d => uint_value (10 * acc + 4) d
  | Decimal.D5 d => uint_value (10 * acc + 5) d
  | Decimal.D6 d => uint_value (10 * acc + 6) d
  | Decimal.D7 d => uint_value (10 * acc + 7) d
  | Decimal.D8 d => uint_value (10 * acc + 8) d
  | Decimal.D9 d => uint_value (10 * acc + 9) d
  end.

Definition uint_chars (d : Decimal.uint) : list ascii :=
  list_ascii_of_string (NilEmpty.string_of_uint d).

(** Values whose floats JSON can write. *)
Definition finite (x : float) : Prop := is_finite x = true.

Definition SurplusFee_valid (f : SurplusFee.t) : Prop :=
  finite (SurplusFee.maxVolumeFactor f) /\ finite (SurplusFee.factor f).

Definition PriceImprovement_valid (f : PriceImprovement.t) : Prop :=
  finite (PriceImprovement.maxVolumeFactor f) /\ finite (PriceImprovement.factor f).

Definition VolumeFee_valid (f : VolumeFee.t) : Prop :=
  finite (VolumeFee.factor f).

Definition FeePolicy_valid (p : FeePolicy.t) : Prop :=
  match p with
  | FeePolicy.OfSurplusFee f => SurplusFee_valid f
  | FeePolicy.OfPriceImprovement f => PriceImprovement_valid f
  | FeePolicy.OfVolumeFee f => VolumeFee_valid f
  end.

Definition Order_valid (o : Order.t) : Prop :=
  Forall FeePolicy_valid (Order.protocolFees o).

(** A [prices] dict has each key once. *)
Definition Solution_valid (s : Solution.t) : Prop :=
  NoDup (Py.keys (Solution.prices s)).

(** The request [r] with another [id]. *)
Definition with_id (i : option Z) (r : SolverRequest.t) : SolverRequest.t :=
  SolverRequest.mk (SolverRequest.deadline r) (SolverRequest.effectiveGasPrice r) i
    (SolverRequest.liquidity r) (SolverRequest.orders r)
    (SolverRequest.surplusCapturingJitOrderOwners r) (SolverRequest.tokens r).

(** ** Further vocabulary and samples *)

(** The response [get_quote] builds for a pair of tokens. *)
Definition mock_quote (sellToken buyToken : Address) : QuoteResponse.t :=
  QuoteResponse.mk
    (Py.dict_of_items [(sellToken, "1000000000000000000");
                       (buyToken, "950000000000000000")])
    [] [] "0x111111111111111111111111111111111111110aBcDeF" 150000 None [].

Definition sample_query (kind amount : string) : Py.dict string :=
  [("sellToken", "0xaa"); ("buyToken", "0xbb"); ("kind", kind); ("amount", amount);
   ("deadline", "2025-08-06T15:18:31.814523Z")].

Definition quote_params : list string :=
  ["sellToken"; "buyToken"; "kind"; "amount"; "deadline"].

(** The sample request with the given [id] member. *)
Definition sample_members_with_id (id : json) : Py.dict json :=
  Py.dict_set "id" id sample_members.


(** An order of a solve request with its order class under the given key. *)
Definition sample_order_json_keyed (class_key : string) : json :=
  JObj [("appData", JStr "0x00");
        ("buyAmount", JStr "950");
        ("buyToken", JStr "0xbb");
        ("buyTokenDestination", JStr "erc20");
        (class_key, JStr "limit");
        ("fullBuyAmount", JStr "950");
        ("fullSellAmount", JStr "1000");
        ("kind", JStr "sell");
        ("owner", JStr "0xcc");
        ("partiallyFillable", JBool false);
        ("sellAmount", JStr "1000");
        ("sellToken", JStr "0xaa");
        ("sellTokenSource", JStr "erc20");
        ("signature", JStr "0x");
        ("signingScheme", JStr "eip712");
        ("uid", JStr "0x01");
        ("validTo", JInt 1700000000)].

Definition sample_JitOrder : JitOrder.t :=
  JitOrder.mk "0xaa" "0xbb" "1000" "950" "1000" "0xcc" 1700000000 Side.sell false
    SellTokenSource.external BuyTokenSource.erc20 "0x00" "0x" SigningScheme.eip1271.

Definition sample_QuoteResponse : QuoteResponse.t :=
  QuoteResponse.mk [("0xaa", "3"); ("0xbb", "4")]
    [Interaction.mk "0xdd" "0" "0x"] [] "0xee" 21000 (Some "0xff") [sample_JitOrder].

(** * Properties *)

(** ** Association lists as dicts *)

Lemma dict_get_set_same {V : Type} (k : string) (v : V) (d : Py.dict V) :
  Py.dict_get k (Py.dict_set k v d) = Some v.
Proof.
  induction d as [|[k' v'] d IH]; simpl.
  - now rewrite String.eqb_refl.
  - destruct (String.eqb k k') eqn:E; simpl; rewrite E; auto.
Qed.

Lemma dict_get_set_other {V : Type} (k k0 : string) (v : V) (d : Py.dict V) :
  k0 <> k -> Py.dict_get k0 (Py.dict_set k v d) = Py.dict_get k0 d.
Proof.
  intros Hne. induction d as [|[k' v'] d IH]; simpl.
  - destruct (String.eqb k0 k) eqn:E; auto.
    apply String.eqb_eq in E. contradiction.
  - destruct (String.eqb k k') eqn:E; simpl.
    + apply String.eqb_eq in E. subst k'.
      apply String.eqb_neq in Hne. now rewrite Hne.
    + now rewrite IH.
Qed.

Lemma dict_set_fresh {V : Type} (k : string) (v : V) (d : Py.dict V) :
  ~ In k (Py.keys d) -> Py.dict_set k v d = (d ++ [(k, v)])%list.
Proof.
  induction d as [|[k' v'] d IH]; simpl; intros Hk.
  - reflexivity.
  - destruct (String.eqb k k') eqn:E.
    + apply String.eqb_eq in E. subst. tauto.
    + f_equal. apply IH. tauto.
Qed.

Lemma dict_of_items_app {V : Type} (items acc : list (string * V)) :
  NoDup (Py.keys (acc ++ items)%list) ->
  fold_left (fun d kv => Py.dict_set (fst kv) (snd kv) d) items acc
  = (acc ++ items)%list.
Proof.
  revert acc. induction items as [|[k v] items IH]; intros acc Hnd; simpl.
  - now rewrite app_nil_r.
  - assert (Hacc : (acc ++ (k, v) :: items = (acc ++ [(k, v)]) ++ items)%list)
      by now rewrite <- app_assoc.
    rewrite dict_set_fresh.
    + rewrite IH; [now rewrite <- app_assoc | now rewrite <- Hacc].
    + unfold Py.keys in *. rewrite map_app in Hnd. simpl in Hnd.
      apply NoDup_remove_2 in Hnd. intros Hin. apply Hnd.
      apply in_or_app. now left.
Qed.

(** A list of items with distinct keys is the dict it displays. *)
Lemma dict_of_items_nodup {V : Type} (items : list (string * V)) :
  NoDup (Py.keys items) -> Py.dict_of_items items = items.
Proof.
  intros Hnd. unfold Py.dict_of_items. now rewrite dict_of_items_app.
Qed.

(** ** Decimal numerals: [int(str(n))] *)

Lemma int_digits_uint (d : Decimal.uint) :
  forall acc n st,
    d <> Decimal.Nil \/ st = Py.AfterDigit ->
    Py.int_digits acc n st (uint_chars d)
    = Some (uint_value acc d, n + Z.of_nat (Decimal.nb_digits d)).
Proof.
  unfold uint_chars.
  induction d; intros acc n st H;
    try (cbn -[Z.mul Z.add Z.sub Z.of_nat]; rewrite IHd by (now right);
         f_equal; f_equal; try lia; f_equal; lia).
  destruct H as [H | ->]; [contradiction|].
  simpl. f_equal. f_equal. lia.
Qed.

Lemma uint_value_of_lu (d d' : Decimal.uint) :
  Z.of_N (Unsigned.of_lu (Decimal.revapp d d')) = uint_value (Z.of_N (Unsigned.of_lu d')) d.
Proof.
  revert d'.
  induction d; intros d'; cbn [uint_value Decimal.revapp];
    try (rewrite IHd; f_equal; cbn [Unsigned.of_lu]; lia).
  reflexivity.
Qed.

Lemma uint_value_of_uint (d : Decimal.uint) : uint_value 0 d = Z.of_uint d.
Proof.
  unfold Z.of_uint. rewrite Unsigned.of_uint_alt. unfold Decimal.rev.
  now rewrite uint_value_of_lu.
Qed.

Lemma uint_chars_digits (d : Decimal.uint) : forallb Py.isdigit (uint_chars d) = true.
Proof.
  unfold uint_chars. induction d; simpl; auto.
Qed.

Lemma uint_chars_length (d : Decimal.uint) :
  List.length (uint_chars d) = Decimal.nb_digits d.
Proof.
  unfold uint_chars. induction d; simpl; auto.
Qed.

Lemma isdigit_plain (c : ascii) :
  Py.isdigit c = true ->
  Py.isspace c = false /\ Ascii.eqb c "-" = false /\ Ascii.eqb c "+" = false.
Proof.
  destruct c as [[] [] [] [] [] [] [] []]; vm_compute; intros H;
    try discriminate H; repeat split.
Qed.

Lemma lstrip_digits (l : list ascii) :
  forallb Py.isdigit l = true -> Py.lstrip l = l.
Proof.
  destruct l as [|c l]; simpl; [reflexivity|].
  intros H. apply andb_prop in H as [Hc _].
  now destruct (isdigit_plain c Hc) as (-> & _).
Qed.

Lemma strip_digits (l : list ascii) :
  forallb Py.isdigit l = true -> Py.strip l = l.
Proof.
  intros H. unfold Py.strip. rewrite (lstrip_digits l H).
  rewrite lstrip_digits; [apply rev_involutive|].
  rewrite forallb_forall in *. intros c Hc. apply H. now apply in_rev.
Qed.

Lemma list_ascii_of_string_length (s : string) :
  List.length (list_ascii_of_string s) = String.length s.
Proof.
  induction s; simpl; auto.
Qed.

Lemma to_int_nonneg (n : Z) :
  0 <= n -> exists d, Z.to_int n = Decimal.Pos d /\ d <> Decimal.Nil.
Proof.
  destruct n as [|p|p]; intros H; try lia.
  - exists Decimal.zero. split; [reflexivity | discriminate].
  - exists (Pos.to_uint p). split; [reflexivity | apply Unsigned.to_uint_nonnil].
Qed.

Lemma decimal_nonneg (n : Z) :
  0 <= n ->
  exists d, d <> Decimal.Nil /\ Z.of_uint d = n
            /\ list_ascii_of_string (Py.decimal n) = uint_chars d.
Proof.
  intros Hn. destruct (to_int_nonneg n Hn) as (d & Hd & Hnil).
  exists d. repeat split; [assumption | |].
  - pose proof (DecimalZ.of_to n) as H. rewrite Hd in H. exact H.
  - unfold Py.decimal, uint_chars. rewrite Hd. simpl.
    destruct d; [contradiction | reflexivity ..].
Qed.

(** [int(str(n)) == n] for a natural number [n] within the digit limit. *)
Lemma int_of_str_decimal (n : Z) :
  0 <= n ->
  Py.len (Py.decimal n) <= Py.int_max_str_digits ->
  Py.int_of_str (Py.decimal n) = Ok n.
Proof.
  intros Hn Hlen.
  destruct (decimal_nonneg n Hn) as (d & Hnil & Hval & Hchars).
  unfold Py.int_of_str. rewrite Hchars.
  pose proof (uint_chars_digits d) as Hdig.
  rewrite (strip_digits _ Hdig).
  assert (Hlen' : Z.of_nat (Decimal.nb_digits d) <= Py.int_max_str_digits).
  { unfold Py.len in Hlen.
    now rewrite <- list_ascii_of_string_length, Hchars, uint_chars_length in Hlen. }
  pose proof (int_digits_uint d 0 0 Py.AtStart (or_introl Hnil)) as Hparse.
  destruct (uint_chars d) as [|c rest] eqn:E.
  - apply (f_equal (@List.length ascii)) in E. rewrite uint_chars_length in E.
    destruct d; simpl in E; congruence.
  - simpl in Hdig. apply andb_prop in Hdig as [Hc _].
    destruct (isdigit_plain c Hc) as (_ & -> & ->).
    rewrite Hparse, uint_value_of_uint, Hval. simpl Z.add.
    apply Z.leb_le in Hlen'. now rewrite Hlen'.
Qed.

(** ** Decimal numerals: the length of [str(n)] and its limit *)

Lemma uint_value_lower (d : Decimal.uint) :
  forall acc, 0 <= acc ->
    acc * 10 ^ Z.of_nat (Decimal.nb_digits d) <= uint_value acc d.
Proof.
  induction d; intros acc Hacc; cbn [uint_value Decimal.nb_digits];
    try (rewrite Nat2Z.inj_succ, Z.pow_succ_r by lia;
         etransitivity; [|apply IHd; lia];
         assert (0 <= 10 ^ Z.of_nat (Decimal.nb_digits d)) by (apply Z.pow_nonneg; lia);
         nia).
  simpl. lia.
Qed.

Lemma nzhead_not_D0 (d d' : Decimal.uint) : Decimal.nzhead d <> Decimal.D0 d'.
Proof.
  induction d; simpl; try discriminate. assumption.
Qed.

Lemma to_uint_head (p : positive) (d' : Decimal.uint) :
  Pos.to_uint p <> Decimal.D0 d'.
Proof.
  pose proof (Unsigned.to_of (Pos.to_uint p)) as H.
  rewrite Unsigned.of_to in H. simpl in H.
  assert (Hnz : Decimal.nzhead (Pos.to_uint p) <> Decimal.Nil).
  { intros E. unfold Decimal.unorm in H. rewrite E in H.
    apply (Unsigned.to_uint_nonzero p). exact H. }
  rewrite (DecimalFacts.unorm_nzhead _ Hnz) in H. rewrite H. apply nzhead_not_D0.
Qed.

Lemma decimal_pos (p : positive) :
  list_ascii_of_string (Py.decimal (Z.pos p)) = uint_chars (Pos.to_uint p).
Proof.
  unfold Py.decimal, uint_chars. simpl.
  pose proof (Unsigned.to_uint_nonnil p) as Hnil.
  destruct (Pos.to_uint p); [contradiction | reflexivity ..].
Qed.

Lemma uint_value_to_uint (p : positive) : uint_value 0 (Pos.to_uint p) = Z.pos p.
Proof.
  rewrite uint_value_of_uint. exact (DecimalZ.of_to (Z.pos p)).
Qed.

(** A natural number below [10^k] is written with at most [k] digits. *)
Lemma decimal_length (n k : Z) :
  0 <= n < 10 ^ k -> 0 < k -> Py.len (Py.decimal n) <= k.
Proof.
  intros [Hn Hlt] Hk.
  destruct n as [|p|p]; try lia.
  - change (Py.len (Py.decimal 0)) with 1. lia.
  - unfold Py.len.
    rewrite <- list_ascii_of_string_length, decimal_pos, uint_chars_length.
    pose proof (uint_value_to_uint p) as Hval.
    pose proof (Unsigned.to_uint_nonnil p) as Hnil.
    pose proof (to_uint_head p) as Hhead.
    destruct (Pos.to_uint p) as [|d|d|d|d|d|d|d|d|d|d] eqn:E;
      [contradiction | exfalso; exact (Hhead d eq_refl) | ..];
      cbn [uint_value Decimal.nb_digits] in *;
      match type of Hval with
      | uint_value ?a d = _ =>
          pose proof (uint_value_lower d a ltac:(lia)) as Hlow
      end;
      assert (Hpow : 10 ^ Z.of_nat (Decimal.nb_digits d) < 10 ^ k)
        by (assert (0 < 10 ^ Z.of_nat (Decimal.nb_digits d)) by (apply Z.pow_pos_nonneg; lia); nia);
      apply Z.pow_lt_mono_r_iff in Hpow; lia.
Qed.

Lemma int_of_str_decimal_below (n : Z) :
  0 <= n < 10 ^ Py.int_max_str_digits -> Py.int_of_str (Py.decimal n) = Ok n.
Proof.
  intros Hn. apply int_of_str_decimal; [lia|].
  apply decimal_length; [exact Hn | reflexivity].
Qed.

Lemma uint_value_upper (d : Decimal.uint) :
  forall acc, 0 <= acc ->
    uint_value acc d < (acc + 1) * 10 ^ Z.of_nat (Decimal.nb_digits d).
Proof.
  induction d; intros acc Hacc; cbn [uint_value Decimal.nb_digits];
    try (rewrite Nat2Z.inj_succ, Z.pow_succ_r by lia;
         eapply Z.lt_le_trans; [apply IHd; lia|];
         assert (0 <= 10 ^ Z.of_nat (Decimal.nb_digits d)) by (apply Z.pow_nonneg; lia);
         nia).
  simpl. lia.
Qed.

(** A natural number written with at most [k] digits is below [10^k]. *)
Lemma decimal_length_inv (n k : Z) :
  0 <= n -> Py.len (Py.decimal n) <= k -> n < 10 ^ k.
Proof.
  intros Hn Hlen.
  destruct n as [|p|p]; try lia.
  - change (Py.len (Py.decimal 0)) with 1 in Hlen. apply Z.pow_pos_nonneg; lia.
  - unfold Py.len in Hlen.
    rewrite <- list_ascii_of_string_length, decimal_pos, uint_chars_length in Hlen.
    rewrite <- (uint_value_to_uint p).
    eapply Z.lt_le_trans; [apply uint_value_upper; lia|].
    rewrite Z.mul_1_l. apply Z.pow_le_mono_r; lia.
Qed.

(** [str(n)] returns the numeral of [n] when [|n| < 10^4300] and raises
    [ValueError] otherwise. *)
Lemma str_of_int_below (n : Z) :
  Z.abs n < 10 ^ Py.int_max_str_digits -> Py.str_of_int n = Ok (Py.decimal n).
Proof.
  intros Hn. unfold Py.str_of_int.
  assert (H : Py.len (Py.decimal (Z.abs n)) <= Py.int_max_str_digits).
  { apply decimal_length; [lia | reflexivity]. }
  apply Z.leb_le in H. now rewrite H.
Qed.

Lemma str_of_int_above (n : Z) :
  10 ^ Py.int_max_str_digits <= Z.abs n -> Py.str_of_int n = Raise ValueError.
Proof.
  intros Hn. unfold Py.str_of_int.
  destruct (Py.len (Py.decimal (Z.abs n)) <=? Py.int_max_str_digits) eqn:E;
    [|reflexivity].
  apply Z.leb_le in E. apply decimal_length_inv in E; lia.
Qed.

Lemma str_of_int_raises_ValueError (n : Z) (e : exception) :
  Py.str_of_int n = Raise e -> e = ValueError.
Proof.
  unfold Py.str_of_int.
  destruct (Py.len (Py.decimal (Z.abs n)) <=? Py.int_max_str_digits); congruence.
Qed.

Lemma int_of_str_raises_ValueError (s : string) (e : exception) :
  Py.int_of_str s = Raise e -> e = ValueError.
Proof.
  unfold Py.int_of_str.
  destruct (match Py.strip (list_ascii_of_string s) with
            | [] => _
            | c :: rest => _
            end) as [negative digits].
  destruct (Py.int_digits 0 0 Py.AtStart digits) as [[v n]|]; [|congruence].
  destruct (n <=? Py.int_max_str_digits); congruence.
Qed.

(** ** The quote handler *)

(** The locals of the quote handler hold the exact counter-amounts: for every
    amount [n >= 0] written in decimal whose double has at most 4300 digits,
    [floor(n*95/100)] for a sell and [floor(n*100/95)] for a buy. *)
Lemma get_quote_locals_exact (kind : Side.t) (n : Z) :
  0 <= n ->
  2 * n < 10 ^ Py.int_max_str_digits ->
  get_quote_locals kind (Py.decimal n)
  = Ok (match kind with
        | Side.sell => (Py.decimal (n * 95 / 100), Py.decimal n)
        | Side.buy => (Py.decimal n, Py.decimal (n * 100 / 95))
        end).
Proof.
  intros Hn Hlim. unfold get_quote_locals.
  rewrite int_of_str_decimal_below by lia.
  assert (Hsell : 0 <= n * 95 / 100 <= n).
  { split; [apply Z.div_pos; lia | apply Z.div_le_upper_bound; lia]. }
  assert (Hbuy : 0 <= n * 100 / 95 <= 2 * n).
  { split; [apply Z.div_pos; lia | apply Z.div_le_upper_bound; lia]. }
  destruct kind; cbn [bind]; rewrite str_of_int_below by lia; reflexivity.
Qed.

(** What the handler returns when its arithmetic goes through; the
    [ValueError] of [int()] or [str()] escapes otherwise. *)
Lemma get_quote_outcome (sellToken buyToken : Address) (kind : Side.t)
  (amount : TokenAmount) (deadline : DateTime.t) :
  get_quote sellToken buyToken kind amount deadline
  = match get_quote_locals kind amount with
    | Ok _ => Ok (mock_quote sellToken buyToken)
    | Raise _ => Raise ValueError
    end.
Proof.
  unfold get_quote.
  destruct (get_quote_locals kind amount) as [[buy_amount sell_amount] | e] eqn:E.
  - reflexivity.
  - simpl. f_equal. unfold get_quote_locals in E.
    destruct kind;
      (destruct (Py.int_of_str amount) as [n | e'] eqn:Ei; cbn [bind] in E;
       [ match type of E with
         | bind (Py.str_of_int ?m) _ = _ =>
             destruct (Py.str_of_int m) as [w | e''] eqn:Es; cbn [bind] in E;
             [discriminate | apply str_of_int_raises_ValueError in Es; congruence]
         end
       | apply int_of_str_raises_ValueError in Ei; congruence ]).
Qed.

(** The response does not depend on the amount, as long as the handler's
    arithmetic on it goes through. *)
Lemma get_quote_ignores_the_amount (sellToken buyToken : Address) (kind : Side.t)
  (amount amount' : TokenAmount) (deadline : DateTime.t) :
  is_ok (get_quote_locals kind amount) = true ->
  is_ok (get_quote_locals kind amount') = true ->
  get_quote sellToken buyToken kind amount deadline
  = get_quote sellToken buyToken kind amount' deadline.
Proof.
  rewrite !get_quote_outcome.
  destruct (get_quote_locals kind amount); [|discriminate].
  destruct (get_quote_locals kind amount'); [|discriminate].
  reflexivity.
Qed.


(** C1 (the code at the failing input).  For [kind=sell] and amount 100 the
    handler computes the counter-amount 95 = floor(100*95/100) in its local
    [buy_amount] (and, as the interface description asks, 0, 0 and the exact
    78-digit value at the amounts 0, 1 and 2^256-1), but the response it
    returns holds no amount: it is the same for amount 100 and amount 200,
    namely the two fixed clearing prices, the mock solver address and the
    fixed gas. *)
Lemma get_quote_drops_the_computed_amounts :
  get_quote_locals Side.sell "100" = Ok ("95", "100")
  /\ get_quote_locals Side.buy "100" = Ok ("100", "105")
  /\ get_quote_locals Side.sell "0" = Ok ("0", "0")
  /\ get_quote_locals Side.sell "1" = Ok ("0", "1")
  /\ get_quote_locals Side.sell
       "115792089237316195423570985008687907853269984665640564039457584007913129639935"
     = Ok ("110002484775450385652392435758253512460606485432358535837484704807517473157938",
           "115792089237316195423570985008687907853269984665640564039457584007913129639935")
  /\ get_quote "0xaa" "0xbb" Side.sell "100" sample_deadline
     = get_quote "0xaa" "0xbb" Side.sell "200" sample_deadline
  /\ get_quote "0xaa" "0xbb" Side.sell "100" sample_deadline
     = Ok (QuoteResponse.mk
             [("0xaa", "1000000000000000000"); ("0xbb", "950000000000000000")]
             [] [] "0x111111111111111111111111111111111111110aBcDeF" 150000 None []).
Proof.
  repeat split; vm_compute; reflexivity.
Qed.

(** ** The solve handler *)

Lemma solve_auction_cons (r : SolverRequest.t) (O : SolverOrder.t)
  (os : list SolverOrder.t) (L : SolverLiquidity.t) (ls : list SolverLiquidity.t) :
  SolverRequest.orders r = O :: os ->
  SolverRequest.liquidity r = L :: ls ->
  solve_auction r
  = SolveResponse.mk
      [Solution.mk 0
         (Py.dict_of_items
            [(SolverOrder.sellToken O, SolverOrder.buyAmount O);
             (SolverOrder.buyToken O, SolverOrder.sellAmount O)])
         [TradeFulfillment.mk (SolverOrder.uid O) (SolverOrder.sellAmount O) None]
         [LiquidityInteraction.mk false (SolverLiquidity.id L)
            (SolverOrder.sellToken O) (SolverOrder.buyToken O)
            (SolverOrder.sellAmount O) (SolverOrder.buyAmount O)]
         (Some 250000)].
Proof.
  intros HO HL. unfold solve_auction. now rewrite HO, HL.
Qed.

Lemma solve_auction_empty (r : SolverRequest.t) :
  SolverRequest.orders r = [] \/ SolverRequest.liquidity r = [] ->
  solve_auction r = SolveResponse.mk [].
Proof.
  intros [H | H]; unfold solve_auction; rewrite H.
  - reflexivity.
  - now destruct (SolverRequest.orders r).
Qed.

(** Every solve call answers with no solution or with one, whose id is 0. *)
Lemma solve_auction_ids (r : SolverRequest.t) (s : Solution.t) :
  In s (SolveResponse.solutions (solve_auction r)) -> Solution.id s = 0.
Proof.
  destruct (SolverRequest.orders r) as [|O os] eqn:HO.
  - rewrite solve_auction_empty by now left. intros [].
  - destruct (SolverRequest.liquidity r) as [|L ls] eqn:HL.
    + rewrite solve_auction_empty by now right. intros [].
    + rewrite (solve_auction_cons r O os L ls HO HL).
      intros [<- | []]. reflexivity.
Qed.

(** C4.  An auction with exactly one order [O] and exactly one liquidity
    entry [L] is answered with exactly one solution; its trades are one trade,
    which names [O]'s uid, and its interactions are one interaction, which
    names [L]'s id. *)
Theorem solve_one_order_one_liquidity :
  forall (r : SolverRequest.t) (O : SolverOrder.t) (L : SolverLiquidity.t),
    SolverRequest.orders r = [O] ->
    SolverRequest.liquidity r = [L] ->
    exists (s : Solution.t) (t : TradeFulfillment.t) (i : LiquidityInteraction.t),
      SolveResponse.solutions (solve_auction r) = [s]
      /\ Solution.trades s = [t]
      /\ TradeFulfillment.order t = SolverOrder.uid O
      /\ Solution.interactions s = [i]
      /\ LiquidityInteraction.id i = SolverLiquidity.id L.
Proof.
  intros r O L HO HL.
  rewrite (solve_auction_cons r O [] L [] HO HL).
  do 3 eexists. repeat split.
Qed.

Lemma solve_one_order_one_liquidity_witness :
  exists (s : Solution.t) (t : TradeFulfillment.t) (i : LiquidityInteraction.t),
    SolveResponse.solutions (solve_auction sample_request) = [s]
    /\ Solution.trades s = [t]
    /\ TradeFulfillment.order t = "0x01"
    /\ Solution.interactions s = [i]
    /\ LiquidityInteraction.id i = "7".
Proof.
  exact (solve_one_order_one_liquidity sample_request sample_order sample_liquidity
           eq_refl eq_refl).
Defined.

(** C5.  An auction whose orders list is empty, or whose liquidity list is
    empty, is answered with the empty solutions list, and the answer is a
    success: a body that validates to such an auction gets status 200 and the
    body [{"solutions": []}]. *)
Theorem solve_empty_auction_succeeds :
  forall (r : SolverRequest.t),
    SolverRequest.orders r = [] \/ SolverRequest.liquidity r = [] ->
    solve_auction r = SolveResponse.mk []
    /\ forall (body : json),
         SolverRequest.validate body = Ok r ->
         post_solve body = Ok (JObj [("solutions", JArr [])])
         /\ status_code (post_solve body) = 200.
Proof.
  intros r H. pose proof (solve_auction_empty r H) as E.
  split; [exact E|].
  intros body Hbody. unfold post_solve. rewrite Hbody. simpl. rewrite E.
  split; reflexivity.
Qed.

Lemma solve_empty_auction_succeeds_witness :
  solve_auction (sample_request_of [] [sample_liquidity]) = SolveResponse.mk []
  /\ solve_auction (sample_request_of [sample_order] []) = SolveResponse.mk []
  /\ post_solve (JObj sample_empty_members) = Ok (JObj [("solutions", JArr [])])
  /\ status_code (post_solve (JObj sample_empty_members)) = 200.
Proof.
  split; [|split].
  - exact (proj1 (solve_empty_auction_succeeds
                    (sample_request_of [] [sample_liquidity]) (or_introl eq_refl))).
  - exact (proj1 (solve_empty_auction_succeeds
                    (sample_request_of [sample_order] []) (or_intror eq_refl))).
  - apply (proj2 (solve_empty_auction_succeeds
                    (sample_request_of [] []) (or_introl eq_refl))).
    vm_compute. reflexivity.
Defined.

(** C10.  For an auction with at least one order and one liquidity entry the
    returned solution has a single trade, built from the first order's uid and
    its [sellAmount]: the executed amount is the first order's [sellAmount]
    whatever the order's kind, and so differs from its [buyAmount] whenever
    the two amounts differ, for a buy order too. *)
Theorem executed_amount_is_sell_amount :
  forall (r : SolverRequest.t) (O : SolverOrder.t) (os : list SolverOrder.t)
         (L : SolverLiquidity.t) (ls : list SolverLiquidity.t),
    SolverRequest.orders r = O :: os ->
    SolverRequest.liquidity r = L :: ls ->
    exists (s : Solution.t) (t : TradeFulfillment.t),
      SolveResponse.solutions (solve_auction r) = [s]
      /\ Solution.trades s = [t]
      /\ t = TradeFulfillment.mk (SolverOrder.uid O) (SolverOrder.sellAmount O) None
      /\ TradeFulfillment.executedAmount t = SolverOrder.sellAmount O
      /\ (SolverOrder.buyAmount O <> SolverOrder.sellAmount O ->
          TradeFulfillment.executedAmount t <> SolverOrder.buyAmount O).
Proof.
  intros r O os L ls HO HL.
  rewrite (solve_auction_cons r O os L ls HO HL).
  do 2 eexists. repeat split. simpl. congruence.
Qed.

Lemma executed_amount_is_sell_amount_witness :
  SolverOrder.kind sample_buy_order = Side.buy
  /\ SolverOrder.buyAmount sample_buy_order = "500"
  /\ exists (s : Solution.t) (t : TradeFulfillment.t),
       SolveResponse.solutions (solve_auction sample_buy_request) = [s]
       /\ Solution.trades s = [t]
       /\ TradeFulfillment.executedAmount t = "2000"
       /\ TradeFulfillment.executedAmount t <> "500".
Proof.
  split; [reflexivity | split; [reflexivity |]].
  destruct (executed_amount_is_sell_amount sample_buy_request sample_buy_order
              [sample_order] sample_liquidity [] eq_refl eq_refl)
    as (s & t & Hs & Ht & _ & Hsell & Hbuy).
  exists s, t. repeat split; [exact Hs | exact Ht | exact Hsell |].
  apply Hbuy. discriminate.
Defined.

(** ** Runs of the service *)

Lemma produced_app (rs1 rs2 : list response) :
  produced (rs1 ++ rs2)%list = (produced rs1 ++ produced rs2)%list.
Proof.
  unfold produced. now rewrite flat_map_app.
Qed.

(** C2 (as the code has it).  The id of a solution is the constant 0 of the
    handler: every solution produced in a run of the service, by whichever
    call, has id 0. *)
Theorem every_solution_id_is_zero :
  forall (qs : list request) (s : Solution.t),
    In s (produced (serve qs)) -> Solution.id s = 0.
Proof.
  induction qs as [|q qs IH]; intros s Hin.
  - destruct Hin.
  - change (serve (q :: qs)) with ([handle q] ++ serve qs)%list in Hin.
    rewrite produced_app in Hin. apply in_app_or in Hin as [Hin | Hin].
    + destruct q as [r | r]; simpl in Hin.
      * rewrite app_nil_r in Hin. now apply solve_auction_ids in Hin.
      * destruct Hin.
    + now apply IH.
Qed.

Lemma every_solution_id_is_zero_witness :
  Solution.id
    (Solution.mk 0 [("0xbb", "500"); ("0xaa", "2000")]
       [TradeFulfillment.mk "0x02" "2000" None]
       [LiquidityInteraction.mk false "7" "0xbb" "0xaa" "2000" "500"]
       (Some 250000)) = 0.
Proof.
  apply (every_solution_id_is_zero [solve sample_request; solve sample_buy_request]).
  vm_compute. right. left. reflexivity.
Defined.

(** C2 (counterexample).  Two solve calls for two different auctions each
    produce a solution, and the two solutions have the same id. *)
Lemma solution_ids_repeat_across_calls :
  map Solution.id (produced (serve [solve sample_request; solve sample_buy_request]))
  = [0; 0]
  /\ ~ NoDup (map Solution.id
                (produced (serve [solve sample_request; solve sample_buy_request]))).
Proof.
  split; [reflexivity|].
  intros Hnd. inversion Hnd as [|x l Hnotin _]. subst.
  apply Hnotin. now left.
Qed.

Lemma validate_int_outcome (j : json) :
  (exists n, validate_int j = Ok n) \/ (exists type, validate_int j = type_error type).
Proof.
  unfold validate_int.
  destruct j as [|b|n|x|s|items|members]; eauto.
  - destruct (negb (is_finite x)); eauto.
    destruct (Py.float_is_integer x); eauto.
    destruct (Py.int_of_float x) as [n|]; eauto.
    destruct ((- 2 ^ 63 <? n) && (n <? 2 ^ 63)); eauto.
  - destruct (Py.int_of_str s); eauto.
Qed.

Lemma required_int_outcome (d : Py.dict json) (name : string) :
  (exists n, required d name validate_int = Ok n)
  \/ (exists loc type, required d name validate_int = Raise (ValidationError loc type)).
Proof.
  unfold required. destruct (Py.dict_get name d) as [j|]; eauto.
  destruct (validate_int_outcome j) as [[n ->] | [type ->]]; simpl; eauto.
Qed.


(** A value that renders has members that render, so the inputs reported
    for its fields render. *)
Lemma renders_member (d : Py.dict json) (name : string) (j : json) :
  renders (JObj d) = true -> Py.dict_get name d = Some j -> renders j = true.
Proof.
  cbn [renders]. induction d as [|[k v] d IH]; simpl; [discriminate|].
  intros H Hget. apply andb_prop in H as [Hv Hd].
  destruct (String.eqb name k); [congruence | auto].
Qed.

Lemma field_error_inputs_render {A : Type} (d : Py.dict json) (name : string)
  (v : json -> result A) :
  renders (JObj d) = true -> forallb renders (field_error_inputs d name v) = true.
Proof.
  intros H. unfold field_error_inputs.
  destruct (Py.dict_get name d) as [j|] eqn:E.
  - destruct (is_ok (v j)); [reflexivity|].
    cbn [forallb]. now rewrite (renders_member d name j H E).
  - cbn [forallb]. now rewrite H.
Qed.

Lemma field_error_inputs_missing {A : Type} (d : Py.dict json) (name : string)
  (v : json -> result A) :
  Py.dict_get name d = None ->
  forallb renders (field_error_inputs d name v) = renders (JObj d).
Proof.
  intros E. unfold field_error_inputs. rewrite E. cbn [forallb]. apply andb_true_r.
Qed.




(** ** Outcomes of the field validators *)

Lemma at_loc_ok {A : Type} (name : string) (r : result A) (x : A) :
  at_loc name r = Ok x -> r = Ok x.
Proof.
  destruct r as [a | []]; simpl; congruence.
Qed.

Lemma fmap_ok {A B : Type} (f : A -> B) (r : result A) (y : B) :
  fmap f r = Ok y -> exists x, r = Ok x /\ y = f x.
Proof.
  destruct r as [a | e]; simpl; [|discriminate].
  intros [= <-]. now exists a.
Qed.

Lemma bind_ok {A B : Type} (m : result A) (k : A -> result B) (y : B) :
  bind m k = Ok y -> exists x, m = Ok x /\ k x = Ok y.
Proof.
  destruct m as [a | e]; simpl; [|discriminate]. intros H. now exists a.
Qed.

Lemma required_present {A : Type} (d : Py.dict json) (name : string)
  (v : json -> result A) (j : json) (x : A) :
  Py.dict_get name d = Some j -> v j = Ok x -> required d name v = Ok x.
Proof.
  intros Hget Hv. unfold required. now rewrite Hget, Hv.
Qed.

Lemma required_missing {A : Type} (d : Py.dict json) (name : string)
  (v : json -> result A) :
  Py.dict_get name d = None ->
  required d name v = Raise (ValidationError [name] "missing").
Proof.
  intros Hget. unfold required. now rewrite Hget.
Qed.

Lemma validate_float_outcome (j : json) :
  (exists x, validate_float j = Ok x) \/ (exists type, validate_float j = type_error type).
Proof.
  destruct j as [|b|n|x|s|items|members]; simpl; eauto.
  - destruct (Py.float_of_int n); eauto.
  - destruct (float_of_str s); eauto.
Qed.

Lemma required_float_outcome (d : Py.dict json) (name : string) :
  (exists x, required d name validate_float = Ok x)
  \/ (exists loc type, required d name validate_float = Raise (ValidationError loc type)).
Proof.
  unfold required. destruct (Py.dict_get name d) as [j|]; eauto.
  destruct (validate_float_outcome j) as [[x ->] | [type ->]]; simpl; eauto.
Qed.

Lemma required_literal_outcome {A : Type} (d : Py.dict json) (name : string)
  (choices : list (string * A)) :
  (exists a, required d name (validate_literal choices) = Ok a)
  \/ (exists loc type,
        required d name (validate_literal choices) = Raise (ValidationError loc type)).
Proof.
  unfold required. destruct (Py.dict_get name d) as [j|]; eauto.
  unfold validate_literal.
  destruct j as [| | | |s| |]; simpl; eauto.
  destruct (Py.dict_get s choices); simpl; eauto.
Qed.

(** ** TokenAmount and BigUint *)

(** C7 (as the code has it).  A TokenAmount or BigUint is an unconstrained
    [str]: every string offered as its wire value is accepted and kept as it
    is, whatever its characters and whatever number it denotes, and a decoded
    amount [s] can only come from the JSON string [s] (a number is refused,
    not converted). *)
Theorem TokenAmount_accepts_every_string :
  forall (s : string),
    validate_TokenAmount (JStr s) = Ok s
    /\ validate_BigUint (JStr s) = Ok s
    /\ forall (j : json), validate_TokenAmount j = Ok s -> j = JStr s.
Proof.
  intros s. repeat split.
  intros j. destruct j; simpl; try discriminate. now intros [= ->].
Qed.

Lemma TokenAmount_accepts_every_string_witness :
  validate_TokenAmount (JStr "12345678901234567890") = Ok "12345678901234567890"
  /\ validate_BigUint (JStr "0x10") = Ok "0x10"
  /\ JStr "1,000" = JStr "1,000".
Proof.
  split; [|split].
  - exact (proj1 (TokenAmount_accepts_every_string "12345678901234567890")).
  - exact (proj1 (proj2 (TokenAmount_accepts_every_string "0x10"))).
  - exact (proj2 (proj2 (TokenAmount_accepts_every_string "1,000"))
             (JStr "1,000") eq_refl).
Defined.

(** C7 (counterexample).  Strings that are not of the described wire form (a
    leading zero, a sign, a non-digit, the value 2^256, the empty string) are
    accepted as amounts, alone and as the fields of a model. *)
Lemma TokenAmount_accepts_undescribed_strings :
  described_amount "007" = false
  /\ validate_TokenAmount (JStr "007") = Ok "007"
  /\ described_amount "-1" = false
  /\ validate_TokenAmount (JStr "-1") = Ok "-1"
  /\ described_amount "12a" = false
  /\ validate_TokenAmount (JStr "12a") = Ok "12a"
  /\ described_amount
       "115792089237316195423570985008687907853269984665640564039457584007913129639936"
     = false
  /\ validate_TokenAmount
       (JStr "115792089237316195423570985008687907853269984665640564039457584007913129639936")
     = Ok "115792089237316195423570985008687907853269984665640564039457584007913129639936"
  /\ described_amount "" = false
  /\ validate_BigUint (JStr "") = Ok ""
  /\ Quote.validate
       (JObj [("sellAmount", JStr "-1"); ("buyAmount", JStr "007");
              ("fee", JStr "12a"); ("solver", JStr "0xcc")])
     = Ok (Quote.mk "-1" "007" "12a" "0xcc").
Proof.
  repeat split; vm_compute; reflexivity.
Qed.

(** ** FeePolicy: the discriminated union *)

Lemma FeePolicy_validate_surplus (j : json) :
  member "kind" j = Some (JStr "surplus") ->
  FeePolicy.validate j
  = at_loc "surplus" (fmap FeePolicy.OfSurplusFee (SurplusFee.validate j)).
Proof.
  destruct j as [| | | | | |d]; try discriminate.
  intros Hk. unfold FeePolicy.validate. simpl in *. now rewrite Hk.
Qed.

Lemma FeePolicy_validate_priceImprovement (j : json) :
  member "kind" j = Some (JStr "priceImprovement") ->
  FeePolicy.validate j
  = at_loc "priceImprovement" (fmap FeePolicy.OfPriceImprovement (PriceImprovement.validate j)).
Proof.
  destruct j as [| | | | | |d]; try discriminate.
  intros Hk. unfold FeePolicy.validate. simpl in *. now rewrite Hk.
Qed.

Lemma FeePolicy_validate_volume (j : json) :
  member "kind" j = Some (JStr "volume") ->
  FeePolicy.validate j
  = at_loc "volume" (fmap FeePolicy.OfVolumeFee (VolumeFee.validate j)).
Proof.
  destruct j as [| | | | | |d]; try discriminate.
  intros Hk. unfold FeePolicy.validate. simpl in *. now rewrite Hk.
Qed.

(** The variant a validated payload decodes to is the one its tag names. *)
Lemma FeePolicy_validate_tag (j : json) (x : FeePolicy.t) :
  FeePolicy.validate j = Ok x ->
  member "kind" j = Some (JStr (FeePolicy.kind x)).
Proof.
  unfold FeePolicy.validate. destruct j as [|b|n|y|s|items|members]; simpl; try discriminate.
  destruct (Py.dict_get "kind" members) as [[| | | |tag| |]|]; try discriminate.
  destruct (String.eqb tag "surplus") eqn:E1;
    [|destruct (String.eqb tag "priceImprovement") eqn:E2;
      [|destruct (String.eqb tag "volume") eqn:E3; [|discriminate]]];
    intros H; apply at_loc_ok, fmap_ok in H as (f & _ & ->); simpl;
    apply String.eqb_eq in E1 || apply String.eqb_eq in E2 || apply String.eqb_eq in E3;
    congruence.
Qed.

Lemma SurplusFee_without_factor (d : Py.dict json) :
  Py.dict_get "factor" d = None ->
  exists loc type, SurplusFee.validate (JObj d) = Raise (ValidationError loc type).
Proof.
  intros Hf. unfold SurplusFee.validate. simpl.
  destruct (required_literal_outcome d "kind" [("surplus", tt)])
    as [[u ->] | (loc & type & ->)]; simpl; eauto.
  destruct (required_float_outcome d "maxVolumeFactor") as [[x ->] | (loc & type & ->)];
    simpl; eauto.
  rewrite (required_missing d "factor" validate_float Hf). simpl. eauto.
Qed.

(** C6.  FeePolicy decoding is discriminated by the [kind] tag:
    - a payload tagged [surplus] that has no [factor] fails validation;
    - a payload whose tag is none of [surplus], [priceImprovement], [volume]
      fails validation ([union_tag_invalid]), as does one with no tag;
    - a payload tagged with one of the three kinds is validated by the schema
      of that variant alone, and decodes to that variant whenever that schema
      accepts it;
    - whatever a payload decodes to, the variant is the one its tag names:
      none is chosen by the shape of the other fields. *)
Theorem FeePolicy_is_discriminated_by_kind :
  forall (d : Py.dict json),
    (Py.dict_get "kind" d = Some (JStr "surplus") ->
     Py.dict_get "factor" d = None ->
     exists loc type, FeePolicy.validate (JObj d) = Raise (ValidationError loc type))
    /\ (forall tag : string,
          Py.dict_get "kind" d = Some (JStr tag) ->
          tag <> "surplus" -> tag <> "priceImprovement" -> tag <> "volume" ->
          FeePolicy.validate (JObj d) = Raise (ValidationError [] "union_tag_invalid"))
    /\ (Py.dict_get "kind" d = None ->
        FeePolicy.validate (JObj d) = Raise (ValidationError [] "union_tag_not_found"))
    /\ (forall f : SurplusFee.t,
          Py.dict_get "kind" d = Some (JStr "surplus") ->
          SurplusFee.validate (JObj d) = Ok f ->
          FeePolicy.validate (JObj d) = Ok (FeePolicy.OfSurplusFee f))
    /\ (forall f : PriceImprovement.t,
          Py.dict_get "kind" d = Some (JStr "priceImprovement") ->
          PriceImprovement.validate (JObj d) = Ok f ->
          FeePolicy.validate (JObj d) = Ok (FeePolicy.OfPriceImprovement f))
    /\ (forall f : VolumeFee.t,
          Py.dict_get "kind" d = Some (JStr "volume") ->
          VolumeFee.validate (JObj d) = Ok f ->
          FeePolicy.validate (JObj d) = Ok (FeePolicy.OfVolumeFee f))
    /\ (forall x : FeePolicy.t,
          FeePolicy.validate (JObj d) = Ok x ->
          Py.dict_get "kind" d = Some (JStr (FeePolicy.kind x))).
Proof.
  intros d. repeat apply conj.
  - intros Hk Hf. rewrite (FeePolicy_validate_surplus (JObj d) Hk).
    destruct (SurplusFee_without_factor d Hf) as (loc & type & ->). simpl. eauto.
  - intros tag Hk H1 H2 H3. unfold FeePolicy.validate. simpl. rewrite Hk.
    apply String.eqb_neq in H1, H2, H3. now rewrite H1, H2, H3.
  - intros Hk. unfold FeePolicy.validate. simpl. now rewrite Hk.
  - intros f Hk Hf. rewrite (FeePolicy_validate_surplus (JObj d) Hk), Hf. reflexivity.
  - intros f Hk Hf. rewrite (FeePolicy_validate_priceImprovement (JObj d) Hk), Hf. reflexivity.
  - intros f Hk Hf. rewrite (FeePolicy_validate_volume (JObj d) Hk), Hf. reflexivity.
  - intros x Hx. exact (FeePolicy_validate_tag (JObj d) x Hx).
Qed.

Lemma FeePolicy_is_discriminated_by_kind_witness :
  (exists loc type,
      FeePolicy.validate (JObj surplus_without_factor) = Raise (ValidationError loc type))
  /\ FeePolicy.validate (JObj unknown_kind) = Raise (ValidationError [] "union_tag_invalid")
  /\ FeePolicy.validate (JObj untagged) = Raise (ValidationError [] "union_tag_not_found")
  /\ FeePolicy.validate (JObj surplus_with_quote)
     = Ok (FeePolicy.OfSurplusFee (SurplusFee.mk 0.25 0.5))
  /\ FeePolicy.validate (JObj priceImprovement_payload)
     = Ok (FeePolicy.OfPriceImprovement
             (PriceImprovement.mk 0.25 0.5 (Quote.mk "1000" "950" "3" "0xcc")))
  /\ FeePolicy.validate (JObj volume_with_maxVolumeFactor)
     = Ok (FeePolicy.OfVolumeFee (VolumeFee.mk 0.5))
  /\ Py.dict_get "kind" volume_with_maxVolumeFactor
     = Some (JStr (FeePolicy.kind (FeePolicy.OfVolumeFee (VolumeFee.mk 0.5)))).
Proof.
  repeat apply conj.
  - destruct (FeePolicy_is_discriminated_by_kind surplus_without_factor) as (H & _).
    apply H; reflexivity.
  - destruct (FeePolicy_is_discriminated_by_kind unknown_kind) as (_ & H & _).
    apply (H "unknown"); [reflexivity | discriminate | discriminate | discriminate].
  - destruct (FeePolicy_is_discriminated_by_kind untagged) as (_ & _ & H & _).
    apply H; reflexivity.
  - destruct (FeePolicy_is_discriminated_by_kind surplus_with_quote)
      as (_ & _ & _ & H & _).
    apply H; reflexivity.
  - destruct (FeePolicy_is_discriminated_by_kind priceImprovement_payload)
      as (_ & _ & _ & _ & H & _).
    apply H; reflexivity.
  - destruct (FeePolicy_is_discriminated_by_kind volume_with_maxVolumeFactor)
      as (_ & _ & _ & _ & _ & H & _).
    apply H; reflexivity.
  - destruct (FeePolicy_is_discriminated_by_kind volume_with_maxVolumeFactor)
      as (_ & _ & _ & _ & _ & _ & H).
    apply H; reflexivity.
Defined.

(** ** The solve request and its [id] *)

Lemma required_set_other {A : Type} (d : Py.dict json) (k name : string) (j : json)
  (v : json -> result A) :
  name <> k -> required (Py.dict_set k j d) name v = required d name v.
Proof.
  intros Hne. unfold required. now rewrite dict_get_set_other.
Qed.

Lemma with_default_set_same {A : Type} (d : Py.dict json) (k : string) (j : json)
  (v : json -> result A) (default : A) :
  with_default (Py.dict_set k j d) k v default = at_loc k (v j).
Proof.
  unfold with_default. now rewrite dict_get_set_same.
Qed.

(** A body decodes to [r] exactly when each field decodes to [r]'s. *)
Lemma SolverRequest_validate_fields (d : Py.dict json) (r : SolverRequest.t) :
  SolverRequest.validate (JObj d) = Ok r <->
  required d "deadline" DateTime.validate = Ok (SolverRequest.deadline r)
  /\ required d "effectiveGasPrice" validate_TokenAmount
     = Ok (SolverRequest.effectiveGasPrice r)
  /\ with_default d "id" SolverRequest.validate_id None = Ok (SolverRequest.id r)
  /\ required d "liquidity" (validate_list SolverLiquidity.validate)
     = Ok (SolverRequest.liquidity r)
  /\ required d "orders" (validate_list SolverOrder.validate) = Ok (SolverRequest.orders r)
  /\ required d "surplusCapturingJitOrderOwners" (validate_list validate_Address)
     = Ok (SolverRequest.surplusCapturingJitOrderOwners r)
  /\ required d "tokens" (validate_dict SolverTokenInfo.validate)
     = Ok (SolverRequest.tokens r).
Proof.
  unfold SolverRequest.validate. simpl. split.
  - intros H.
    repeat (apply bind_ok in H as (? & ? & H)).
    injection H as <-. simpl. repeat split; assumption.
  - intros (H1 & H2 & H3 & H4 & H5 & H6 & H7).
    rewrite H1, H2, H3, H4, H5, H6, H7. simpl. now destruct r.
Qed.

Lemma validate_id_int (n : Z) : SolverRequest.validate_id (JInt n) = Ok (Some n).
Proof. reflexivity. Qed.

Lemma validate_id_null : SolverRequest.validate_id JNull = Ok None.
Proof. reflexivity. Qed.

Lemma validate_id_str (s : string) (n : Z) :
  Py.int_of_str s = Ok n -> SolverRequest.validate_id (JStr s) = Ok (Some n).
Proof.
  intros H. unfold SolverRequest.validate_id, before_validator. simpl. now rewrite H.
Qed.

(** What [validate_id] returns, by the input it was given. *)
Lemma validate_id_inv (j : json) (i : option Z) :
  SolverRequest.validate_id j = Ok i ->
  match j with
  | JNull => i = None
  | JInt n => i = Some n
  | JBool b => i = Some (if b then 1 else 0)
  | JStr s => exists n, Py.int_of_str s = Ok n /\ i = Some n
  | JFloat x => exists n, Py.int_of_float x = Ok n /\ i = Some n
  | JArr _ | JObj _ => False
  end.
Proof.
  unfold SolverRequest.validate_id, before_validator.
  destruct j as [|b|n|x|s|items|members]; simpl; try congruence.
  - destruct (Py.int_of_float x) as [n | []]; simpl; try discriminate.
    intros [= <-]. eauto.
  - destruct (Py.int_of_str s) as [n | []]; simpl; try discriminate.
    intros [= <-]. eauto.
Qed.

Lemma SolverRequest_validate_set_id (d : Py.dict json) (r : SolverRequest.t)
  (j : json) (i : option Z) :
  SolverRequest.validate (JObj d) = Ok r ->
  SolverRequest.validate_id j = Ok i ->
  SolverRequest.validate (JObj (Py.dict_set "id" j d)) = Ok (with_id i r).
Proof.
  intros Hr Hj.
  apply SolverRequest_validate_fields in Hr as (H1 & H2 & _ & H4 & H5 & H6 & H7).
  apply SolverRequest_validate_fields. simpl.
  rewrite !required_set_other by discriminate.
  rewrite with_default_set_same, Hj. simpl. repeat split; assumption.
Qed.

(** C9 (as the code has it).  When a solve request decodes, its [id] is the
    integer the [id] member denotes: an absent or null member stays absent, an
    integer is kept, a string is read as [int()] reads it (a bool and a float
    are converted by [int()] too, and no other value decodes).  And a request
    that decodes still decodes, to the same auction with the normalized id,
    when its [id] member is replaced by an integer, by a string that [int()]
    reads, or by null. *)
Theorem SolverRequest_id_is_normalized :
  forall (d : Py.dict json) (r : SolverRequest.t),
    SolverRequest.validate (JObj d) = Ok r ->
    match Py.dict_get "id" d with
    | None | Some JNull => SolverRequest.id r = None
    | Some (JInt n) => SolverRequest.id r = Some n
    | Some (JStr s) => exists n, Py.int_of_str s = Ok n /\ SolverRequest.id r = Some n
    | Some (JBool b) => SolverRequest.id r = Some (if b then 1 else 0)
    | Some (JFloat x) => exists n, Py.int_of_float x = Ok n /\ SolverRequest.id r = Some n
    | Some (JArr _) | Some (JObj _) => False
    end
    /\ (forall n : Z,
          SolverRequest.validate (JObj (Py.dict_set "id" (JInt n) d))
          = Ok (with_id (Some n) r))
    /\ (forall (s : string) (n : Z),
          Py.int_of_str s = Ok n ->
          SolverRequest.validate (JObj (Py.dict_set "id" (JStr s) d))
          = Ok (with_id (Some n) r))
    /\ SolverRequest.validate (JObj (Py.dict_set "id" JNull d)) = Ok (with_id None r).
Proof.
  intros d r Hr. repeat apply conj.
  - apply SolverRequest_validate_fields in Hr as (_ & _ & Hid & _).
    unfold with_default in Hid.
    destruct (Py.dict_get "id" d) as [j|].
    + apply at_loc_ok, validate_id_inv in Hid. destruct j; exact Hid.
    + congruence.
  - intros n. apply (SolverRequest_validate_set_id d r _ _ Hr), validate_id_int.
  - intros s n Hs. apply (SolverRequest_validate_set_id d r _ _ Hr), validate_id_str, Hs.
  - apply (SolverRequest_validate_set_id d r _ _ Hr), validate_id_null.
Qed.

Lemma SolverRequest_id_is_normalized_witness :
  SolverRequest.id sample_request = None
  /\ SolverRequest.validate (JObj (Py.dict_set "id" (JInt 42) sample_members))
     = Ok (with_id (Some 42) sample_request)
  /\ SolverRequest.validate (JObj (Py.dict_set "id" (JStr "42") sample_members))
     = Ok (with_id (Some 42) sample_request)
  /\ SolverRequest.validate (JObj (Py.dict_set "id" JNull sample_members))
     = Ok (with_id None sample_request).
Proof.
  assert (Hr : SolverRequest.validate (JObj sample_members) = Ok sample_request)
    by (vm_compute; reflexivity).
  destruct (SolverRequest_id_is_normalized sample_members sample_request Hr)
    as (Hnone & Hint & Hstr & Hnull).
  repeat apply conj.
  - exact Hnone.
  - exact (Hint 42).
  - apply (Hstr "42" 42). vm_compute. reflexivity.
  - exact Hnull.
Defined.

(** C9 (counterexample).  The [id] of a solve request is not the only value
    the validation converts: a reveal request whose two ids are strings
    decodes to the integers, and a solve request whose [validTo],
    [partiallyFillable] and [trusted] members are strings decodes to the same
    auction as the one that has them as an integer and booleans. *)
Lemma validation_converts_other_fields :
  RevealRequest.validate (JObj [("solutionId", JStr "1"); ("auctionId", JStr "123")])
  = Ok (RevealRequest.mk 1 123)
  /\ SolverRequest.validate (JObj sample_members) = Ok sample_request
  /\ SolverRequest.validate (JObj sample_members_as_strings) = Ok sample_request.
Proof.
  repeat split; vm_compute; reflexivity.
Qed.

(** ** Round trips: a value that is sent decodes to itself *)

Lemma validate_items_dump {A : Type} (v : json -> result A) (dmp : A -> json)
  (l : list A) (i : Z) :
  Forall (fun x => v (dmp x) = Ok x) l ->
  validate_items v i (map dmp l) = Ok l.
Proof.
  intros H. revert i. induction H as [|x l Hx _ IH]; intros i; simpl.
  - reflexivity.
  - now rewrite Hx, IH.
Qed.

Lemma validate_list_dump {A : Type} (v : json -> result A) (dmp : A -> json)
  (l : list A) :
  Forall (fun x => v (dmp x) = Ok x) l ->
  validate_list v (dump_list dmp l) = Ok l.
Proof.
  intros H. unfold validate_list, dump_list. now apply validate_items_dump.
Qed.

Lemma validate_list_dump_all {A : Type} (v : json -> result A) (dmp : A -> json)
  (l : list A) :
  (forall x, v (dmp x) = Ok x) -> validate_list v (dump_list dmp l) = Ok l.
Proof.
  intros H. apply validate_list_dump, Forall_forall. auto.
Qed.

Lemma validate_members_dump {V : Type} (v : json -> result V) (dmp : V -> json)
  (m : list (string * V)) :
  (forall x, v (dmp x) = Ok x) ->
  validate_members v (map (fun kv => (fst kv, dmp (snd kv))) m) = Ok m.
Proof.
  intros H. induction m as [|[k x] m IH]; simpl.
  - reflexivity.
  - now rewrite H, IH.
Qed.

Lemma validate_dict_dump {V : Type} (v : json -> result V) (dmp : V -> json)
  (m : Py.dict V) :
  (forall x, v (dmp x) = Ok x) ->
  NoDup (Py.keys m) ->
  validate_dict v (dump_dict dmp m) = Ok m.
Proof.
  intros H Hnd. unfold validate_dict, dump_dict.
  rewrite validate_members_dump by assumption. simpl.
  now rewrite dict_of_items_nodup.
Qed.

Lemma validate_optional_dump {A : Type} (v : json -> result A) (dmp : A -> json)
  (o : option A) :
  (forall x, v (dmp x) = Ok x) ->
  (forall x, dmp x <> JNull) ->
  validate_optional v (dump_optional dmp o) = Ok o.
Proof.
  intros H Hnull. destruct o as [a|]; simpl; [|reflexivity].
  unfold validate_optional. specialize (Hnull a).
  destruct (dmp a) eqn:E; try congruence; rewrite <- E, H; reflexivity.
Qed.

Lemma validate_float_dump (x : float) :
  finite x -> validate_float (dump_float x) = Ok x.
Proof.
  unfold finite, dump_float. now intros ->.
Qed.

Lemma Side_round_trip (x : Side.t) : Side.validate (Side.dump x) = Ok x.
Proof. now destruct x. Qed.

Lemma SellTokenSource_round_trip (x : SellTokenSource.t) :
  SellTokenSource.validate (SellTokenSource.dump x) = Ok x.
Proof. now destruct x. Qed.

Lemma BuyTokenSource_round_trip (x : BuyTokenSource.t) :
  BuyTokenSource.validate (BuyTokenSource.dump x) = Ok x.
Proof. now destruct x. Qed.

Lemma OrderClass_round_trip (x : OrderClass.t) :
  OrderClass.validate (OrderClass.dump x) = Ok x.
Proof. now destruct x. Qed.

Lemma SigningScheme_round_trip (x : SigningScheme.t) :
  SigningScheme.validate (SigningScheme.dump x) = Ok x.
Proof. now destruct x. Qed.

Lemma Interaction_round_trip (x : Interaction.t) :
  Interaction.validate (Interaction.dump x) = Ok x.
Proof. now destruct x. Qed.

Lemma Quote_round_trip (x : Quote.t) : Quote.validate (Quote.dump x) = Ok x.
Proof. now destruct x. Qed.

Lemma TradeFulfillment_round_trip (x : TradeFulfillment.t) :
  TradeFulfillment.validate (TradeFulfillment.dump x) = Ok x.
Proof. destruct x as [order executedAmount [fee|]]; reflexivity. Qed.

Lemma LiquidityInteraction_round_trip (x : LiquidityInteraction.t) :
  LiquidityInteraction.validate (LiquidityInteraction.dump x) = Ok x.
Proof. now destruct x. Qed.

Create Rewrite HintDb round_trip.

#[local] Hint Rewrite Side_round_trip SellTokenSource_round_trip
  BuyTokenSource_round_trip OrderClass_round_trip SigningScheme_round_trip
  Interaction_round_trip Quote_round_trip TradeFulfillment_round_trip
  LiquidityInteraction_round_trip : round_trip.

(** One step of a record's round trip: run the validator up to the next field
    whose value is not a literal, and decode that field by its own round trip. *)
Ltac round_trip_step :=
  cbn -[validate_list dump_list validate_optional dump_optional validate_dict dump_dict
        validate_float dump_float Side.validate Side.dump SellTokenSource.validate
        SellTokenSource.dump BuyTokenSource.validate BuyTokenSource.dump
        OrderClass.validate OrderClass.dump SigningScheme.validate SigningScheme.dump
        Quote.validate Quote.dump];
  first
    [ rewrite validate_float_dump by assumption
    | rewrite validate_list_dump by assumption
    | rewrite validate_list_dump_all by (intros; autorewrite with round_trip; reflexivity)
    | rewrite validate_optional_dump
        by (intros; (autorewrite with round_trip; reflexivity) || discriminate)
    | rewrite validate_dict_dump by (assumption || reflexivity)
    | progress autorewrite with round_trip ].

Lemma SurplusFee_round_trip (f : SurplusFee.t) :
  SurplusFee_valid f -> SurplusFee.validate (SurplusFee.dump f) = Ok f.
Proof.
  destruct f as [m f]. intros [Hm Hf]. simpl in Hm, Hf.
  unfold SurplusFee.validate, SurplusFee.dump.
  repeat round_trip_step. reflexivity.
Qed.

Lemma PriceImprovement_round_trip (f : PriceImprovement.t) :
  PriceImprovement_valid f ->
  PriceImprovement.validate (PriceImprovement.dump f) = Ok f.
Proof.
  destruct f as [m f q]. intros [Hm Hf]. simpl in Hm, Hf.
  unfold PriceImprovement.validate, PriceImprovement.dump.
  repeat round_trip_step. reflexivity.
Qed.

Lemma VolumeFee_round_trip (f : VolumeFee.t) :
  VolumeFee_valid f -> VolumeFee.validate (VolumeFee.dump f) = Ok f.
Proof.
  destruct f as [f]. intros Hf. unfold VolumeFee_valid in Hf. simpl in Hf.
  unfold VolumeFee.validate, VolumeFee.dump.
  repeat round_trip_step. reflexivity.
Qed.

Lemma FeePolicy_round_trip (p : FeePolicy.t) :
  FeePolicy_valid p -> FeePolicy.validate (FeePolicy.dump p) = Ok p.
Proof.
  destruct p as [f | f | f]; intros Hf;
    cbn [FeePolicy.dump FeePolicy_valid] in *.
  - rewrite FeePolicy_validate_surplus by reflexivity.
    now rewrite SurplusFee_round_trip.
  - rewrite FeePolicy_validate_priceImprovement by reflexivity.
    now rewrite PriceImprovement_round_trip.
  - rewrite FeePolicy_validate_volume by reflexivity.
    now rewrite VolumeFee_round_trip.
Qed.

Lemma Order_round_trip (o : Order.t) :
  Order_valid o -> Order.validate (Order.dump o) = Ok o.
Proof.
  destruct o. unfold Order_valid. simpl. intros Hfees.
  assert (Hlist : Forall (fun p => FeePolicy.validate (FeePolicy.dump p) = Ok p)
                    protocolFees).
  { eapply Forall_impl; [|exact Hfees]. exact FeePolicy_round_trip. }
  unfold Order.validate, Order.dump.
  repeat round_trip_step. reflexivity.
Qed.

Lemma Solution_round_trip (s : Solution.t) :
  Solution_valid s -> Solution.validate (Solution.dump s) = Ok s.
Proof.
  destruct s. unfold Solution_valid. simpl. intros Hnd.
  unfold Solution.validate, Solution.dump.
  repeat round_trip_step. reflexivity.
Qed.

(** An order payload that has no [class] member is refused, whatever else it
    holds. *)
Lemma Order_without_class (d : Py.dict json) :
  Py.dict_get "class" d = None -> is_ok (Order.validate (JObj d)) = false.
Proof.
  intros Hc. unfold Order.validate. simpl.
  rewrite (required_missing d "class" OrderClass.validate Hc).
  repeat match goal with
         | |- is_ok (bind ?m _) = false => destruct m; simpl; [|reflexivity]
         end.
  reflexivity.
Qed.

(** C8 (as the code has it).  Sending a value and decoding what was sent
    yields the value again, for every FeePolicy whose factors are finite
    floats, for every Order whose fee policies are such, and for every
    Solution whose [prices] have each key once; so the payload a value is sent
    as is sent unchanged after decoding.  The order class is sent under the
    key [class] and under no key [klass], and it is read from [class] only: a
    payload with no [class] member is refused. *)
Theorem validate_dump_round_trip :
  (forall p : FeePolicy.t,
      FeePolicy_valid p ->
      FeePolicy.validate (FeePolicy.dump p) = Ok p
      /\ fmap FeePolicy.dump (FeePolicy.validate (FeePolicy.dump p))
         = Ok (FeePolicy.dump p))
  /\ (forall o : Order.t,
        Order_valid o ->
        Order.validate (Order.dump o) = Ok o
        /\ fmap Order.dump (Order.validate (Order.dump o)) = Ok (Order.dump o))
  /\ (forall s : Solution.t,
        Solution_valid s ->
        Solution.validate (Solution.dump s) = Ok s
        /\ fmap Solution.dump (Solution.validate (Solution.dump s))
           = Ok (Solution.dump s))
  /\ (forall o : Order.t,
        member "class" (Order.dump o) = Some (JStr (OrderClass.str (Order.klass o)))
        /\ member "klass" (Order.dump o) = None)
  /\ (forall d : Py.dict json,
        Py.dict_get "class" d = None -> is_ok (Order.validate (JObj d)) = false).
Proof.
  repeat apply conj.
  - intros p Hp. rewrite FeePolicy_round_trip by assumption. now split.
  - intros o Ho. rewrite Order_round_trip by assumption. now split.
  - intros s Hs. rewrite Solution_round_trip by assumption. now split.
  - intros o. split; reflexivity.
  - exact Order_without_class.
Qed.

Lemma validate_dump_round_trip_witness :
  FeePolicy.validate
    (FeePolicy.dump (FeePolicy.OfPriceImprovement
                       (PriceImprovement.mk 0.25 0.5 (Quote.mk "1000" "950" "3" "0xcc"))))
  = Ok (FeePolicy.OfPriceImprovement
          (PriceImprovement.mk 0.25 0.5 (Quote.mk "1000" "950" "3" "0xcc")))
  /\ Order.validate (Order.dump sample_Order) = Ok sample_Order
  /\ Solution.validate (Solution.dump sample_Solution) = Ok sample_Solution
  /\ is_ok (Order.validate (JObj (sample_Order_members_with "klass"))) = false.
Proof.
  destruct validate_dump_round_trip as (HF & HO & HS & _ & HC).
  repeat apply conj.
  - apply HF. split; reflexivity.
  - apply HO. unfold Order_valid. simpl.
    repeat constructor.
  - apply HS. unfold Solution_valid. simpl.
    repeat constructor; simpl; intuition discriminate.
  - apply HC. reflexivity.
Defined.

(** C8 (counterexample).  Decoding a valid payload and sending the result
    does not give the payload back: the members a payload may leave out are
    sent ([gas], the [kind] and [fee] of a trade, the [quote] of an order),
    and a member that names no field of the variant is not. *)
Lemma dump_of_decoded_payload_differs :
  fmap Solution.dump (Solution.validate solution_without_gas)
  = Ok (JObj [("id", JInt 0);
              ("prices", JObj [("0xaa", JStr "950"); ("0xbb", JStr "1000")]);
              ("trades", JArr [JObj [("kind", JStr "fulfillment");
                                     ("order", JStr "0x01");
                                     ("executedAmount", JStr "1000");
                                     ("fee", JNull)]]);
              ("interactions", JArr []);
              ("gas", JNull)])
  /\ member "gas" solution_without_gas = None
  /\ fmap Solution.dump (Solution.validate solution_without_gas) <> Ok solution_without_gas
  /\ fmap FeePolicy.dump (FeePolicy.validate (JObj volume_with_maxVolumeFactor))
     = Ok (JObj [("kind", JStr "volume"); ("factor", JFloat 0.5)])
  /\ member "maxVolumeFactor" (JObj volume_with_maxVolumeFactor) = Some (JFloat 0.25)
  /\ Order.validate (JObj sample_Order_members) = Ok (sample_Order_with None)
  /\ fmap Order.dump (Order.validate (JObj sample_Order_members))
     = Ok (JObj (sample_Order_members ++ [("quote", JNull)])%list)
  /\ member "quote" (JObj sample_Order_members) = None.
Proof.
  repeat apply conj; try (vm_compute; reflexivity).
  vm_compute. discriminate.
Qed.

(** * Further properties of the code *)

(** ** The quote handler and its route *)

(** X1.  For every amount [n] of the 256-bit range, written in decimal, the
    quote handler's locals hold the exact counter-amount, as a decimal string
    that reads back to the integer: [floor(n*95/100)] in [buy_amount] for a
    sell, [floor(n*100/95)] in [sell_amount] for a buy; the other local is
    the amount itself. *)
Theorem quote_counter_amounts_are_exact :
  forall (kind : Side.t) (n : Z),
    0 <= n <= 2 ^ 256 - 1 ->
    exists buy_amount sell_amount : TokenAmount,
      get_quote_locals kind (Py.decimal n) = Ok (buy_amount, sell_amount)
      /\ match kind with
         | Side.sell =>
             Py.int_of_str buy_amount = Ok (n * 95 / 100)
             /\ sell_amount = Py.decimal n
         | Side.buy =>
             Py.int_of_str sell_amount = Ok (n * 100 / 95)
             /\ buy_amount = Py.decimal n
         end.
Proof.
  intros kind n Hn.
  assert (Hmax : 2 * 2 ^ 256 < 10 ^ Py.int_max_str_digits) by (vm_compute; reflexivity).
  remember (10 ^ Py.int_max_str_digits) as M eqn:HM.
  assert (Hsell : 0 <= n * 95 / 100 <= n).
  { split; [apply Z.div_pos; lia | apply Z.div_le_upper_bound; lia]. }
  assert (Hbuy : 0 <= n * 100 / 95 <= 2 * n).
  { split; [apply Z.div_pos; lia | apply Z.div_le_upper_bound; lia]. }
  rewrite (get_quote_locals_exact kind n (proj1 Hn)) by (rewrite <- HM; lia).
  destruct kind; do 2 eexists; (split; [reflexivity|]); split; try reflexivity;
    apply int_of_str_decimal_below; rewrite <- HM; lia.
Qed.

Lemma quote_counter_amounts_are_exact_witness :
  exists buy_amount sell_amount : TokenAmount,
    get_quote_locals Side.sell (Py.decimal (2 ^ 256 - 1)) = Ok (buy_amount, sell_amount)
    /\ Py.int_of_str buy_amount = Ok ((2 ^ 256 - 1) * 95 / 100)
    /\ sell_amount = Py.decimal (2 ^ 256 - 1).
Proof.
  apply (quote_counter_amounts_are_exact Side.sell (2 ^ 256 - 1)).
  split; [vm_compute; discriminate | apply Z.le_refl].
Defined.

Lemma query_param_present {A : Type} (query : Py.dict string) (name s : string)
  (v : json -> result A) (x : A) :
  Py.dict_get name query = Some s -> v (JStr s) = Ok x ->
  query_param query name v = Ok x.
Proof.
  intros Hget Hv. unfold query_param. now rewrite Hget, Hv.
Qed.

(** X2.  A quote request whose five parameters are present and valid, with
    an amount of ASCII characters, is answered as the handler's arithmetic on
    the amount goes: with status 200 and the fixed quote for the two tokens
    when it goes through, which it does for either kind when [int()] reads the
    amount as an [n >= 0] whose double has at most 4300 digits; with status
    500 when [int()] does not read the amount, and when the kind is [buy] and
    [n*100//95] has more than 4300 digits, so that [str()] does not write it:
    the [ValueError] escapes the handler. *)
Theorem quote_route_answer_follows_the_arithmetic :
  forall (query : Py.dict string) (sellToken buyToken k amount dl : string)
         (kind : Side.t) (deadline : DateTime.t),
    Py.dict_get "sellToken" query = Some sellToken ->
    Py.dict_get "buyToken" query = Some buyToken ->
    Py.dict_get "kind" query = Some k ->
    Side.validate (JStr k) = Ok kind ->
    Py.dict_get "amount" query = Some amount ->
    Py.isascii amount = true ->
    Py.dict_get "deadline" query = Some dl ->
    DateTime.validate (JStr dl) = Ok deadline ->
    get_quote_route query
    = match get_quote_locals kind amount with
      | Ok _ => Ok (QuoteResponse.dump (mock_quote sellToken buyToken))
      | Raise _ => Raise ValueError
      end
    /\ (is_ok (Py.int_of_str amount) = false ->
        status_code (get_quote_route query) = 500)
    /\ (forall n : Z,
          Py.int_of_str amount = Ok n ->
          0 <= n -> 2 * n < 10 ^ Py.int_max_str_digits ->
          get_quote_route query = Ok (QuoteResponse.dump (mock_quote sellToken buyToken))
          /\ status_code (get_quote_route query) = 200)
    /\ (forall n : Z,
          Py.int_of_str amount = Ok n ->
          kind = Side.buy -> 10 ^ Py.int_max_str_digits <= n * 100 / 95 ->
          status_code (get_quote_route query) = 500).
Proof.
  intros query sellToken buyToken k amount dl kind deadline
         Hs Hb Hk Hkind Ha Hascii Hdl Hdeadline.
  assert (E : get_quote_route query
              = match get_quote_locals kind amount with
                | Ok _ => Ok (QuoteResponse.dump (mock_quote sellToken buyToken))
                | Raise _ => Raise ValueError
                end).
  { unfold get_quote_route.
    rewrite (query_param_present query "sellToken" sellToken validate_Address sellToken Hs eq_refl).
    rewrite (query_param_present query "buyToken" buyToken validate_Address buyToken Hb eq_refl).
    rewrite (query_param_present query "kind" k Side.validate kind Hk Hkind).
    rewrite (query_param_present query "amount" amount validate_TokenAmount amount Ha eq_refl).
    rewrite (query_param_present query "deadline" dl DateTime.validate deadline Hdl Hdeadline).
    cbn [bind]. rewrite get_quote_outcome.
    now destruct (get_quote_locals kind amount). }
  split; [exact E|]. rewrite E. clear E. unfold get_quote_locals. repeat apply conj.
  - intros Hn. destruct kind; destruct (Py.int_of_str amount); try discriminate;
      reflexivity.
  - intros n Hn H0 Hlim. rewrite Hn.
    assert (Hsell : 0 <= n * 95 / 100 <= n).
    { split; [apply Z.div_pos; lia | apply Z.div_le_upper_bound; lia]. }
    assert (Hbuy : 0 <= n * 100 / 95 <= 2 * n).
    { split; [apply Z.div_pos; lia | apply Z.div_le_upper_bound; lia]. }
    destruct kind; cbn [bind]; rewrite str_of_int_below by lia; split; reflexivity.
  - intros n Hn -> Hlim. rewrite Hn. cbn [bind].
    rewrite str_of_int_above by lia. reflexivity.
Qed.

Lemma quote_route_answer_follows_the_arithmetic_witness :
  (get_quote_route (sample_query "sell" "100")
   = Ok (QuoteResponse.dump (mock_quote "0xaa" "0xbb"))
   /\ status_code (get_quote_route (sample_query "sell" "100")) = 200)
  /\ status_code (get_quote_route (sample_query "buy" "1e18")) = 500
  /\ status_code
       (get_quote_route (sample_query "buy" (Py.decimal (10 ^ 4300 - 1)))) = 500.
Proof.
  split; [|split].
  - apply (quote_route_answer_follows_the_arithmetic (sample_query "sell" "100")
             "0xaa" "0xbb" "sell" "100" "2025-08-06T15:18:31.814523Z" Side.sell
             sample_deadline eq_refl eq_refl eq_refl eq_refl eq_refl eq_refl eq_refl
             eq_refl) with (n := 100);
      [reflexivity | lia | vm_compute; reflexivity].
  - apply (quote_route_answer_follows_the_arithmetic (sample_query "buy" "1e18")
             "0xaa" "0xbb" "buy" "1e18" "2025-08-06T15:18:31.814523Z" Side.buy
             sample_deadline eq_refl eq_refl eq_refl eq_refl eq_refl eq_refl eq_refl
             eq_refl).
    reflexivity.
  - apply (quote_route_answer_follows_the_arithmetic
             (sample_query "buy" (Py.decimal (10 ^ 4300 - 1)))
             "0xaa" "0xbb" "buy" (Py.decimal (10 ^ 4300 - 1))
             "2025-08-06T15:18:31.814523Z" Side.buy
             sample_deadline eq_refl eq_refl eq_refl eq_refl eq_refl
             ltac:(vm_compute; reflexivity) eq_refl eq_refl)
      with (n := 10 ^ 4300 - 1);
      [vm_compute; reflexivity | reflexivity | vm_compute; discriminate].
Defined.

Lemma query_param_str_outcome (query : Py.dict string) (name : string) :
  (exists s, Py.dict_get name query = Some s /\ query_param query name validate_str = Ok s)
  \/ (Py.dict_get name query = None
      /\ query_param query name validate_str
         = Raise (ValidationError ["query"; name] "missing")).
Proof.
  unfold query_param. destruct (Py.dict_get name query) as [s|]; eauto.
Qed.

Lemma query_param_kind_outcome (query : Py.dict string) :
  (exists k kind, Py.dict_get "kind" query = Some k
                  /\ (k = "buy" \/ k = "sell")
                  /\ query_param query "kind" Side.validate = Ok kind)
  \/ ((Py.dict_get "kind" query = None
       \/ exists k, Py.dict_get "kind" query = Some k /\ k <> "buy" /\ k <> "sell")
      /\ exists loc type,
           query_param query "kind" Side.validate = Raise (ValidationError loc type)).
Proof.
  unfold query_param. destruct (Py.dict_get "kind" query) as [k|].
  - unfold Side.validate, validate_literal, Side.choices. cbn [Py.dict_get].
    destruct (String.eqb k "buy") eqn:E1.
    + apply String.eqb_eq in E1. left. exists k, Side.buy. auto.
    + destruct (String.eqb k "sell") eqn:E2.
      * apply String.eqb_eq in E2. left. exists k, Side.sell. auto.
      * apply String.eqb_neq in E1, E2. right. split; [right; eauto|].
        simpl. eauto.
  - right. split; [now left | eauto].
Qed.

(** X3.  A quote request that lacks one of the five parameters, or whose
    kind is neither [buy] nor [sell], is refused with a validation error
    (status 422), whatever its other parameters; the handler does not run. *)
Theorem quote_route_refuses_incomplete_queries :
  forall (query : Py.dict string),
    (exists name, In name quote_params /\ Py.dict_get name query = None)
    \/ (exists k, Py.dict_get "kind" query = Some k /\ k <> "buy" /\ k <> "sell") ->
    (exists loc type, get_quote_route query = Raise (ValidationError loc type))
    /\ status_code (get_quote_route query) = 422.
Proof.
  intros query H.
  assert (E : exists loc type, get_quote_route query = Raise (ValidationError loc type)).
  { unfold get_quote_route.
    change (query_param query "sellToken" validate_Address)
      with (query_param query "sellToken" validate_str).
    change (query_param query "buyToken" validate_Address)
      with (query_param query "buyToken" validate_str).
    change (query_param query "amount" validate_TokenAmount)
      with (query_param query "amount" validate_str).
    destruct (query_param_str_outcome query "sellToken") as [(s & Hs & ->) | (Hs & ->)];
      [cbn [bind] | simpl; eauto].
    destruct (query_param_str_outcome query "buyToken") as [(b & Hb & ->) | (Hb & ->)];
      [cbn [bind] | simpl; eauto].
    destruct (query_param_kind_outcome query)
      as [(k & kind & Hk & Hkk & ->) | (_ & loc & type & ->)];
      [cbn [bind] | simpl; eauto].
    destruct (query_param_str_outcome query "amount") as [(a & Ha & ->) | (Ha & ->)];
      [cbn [bind] | simpl; eauto].
    assert (Hd : Py.dict_get "deadline" query = None).
    { destruct H as [(name & Hin & Hnone) | (k' & Hk' & Hne1 & Hne2)].
      - simpl in Hin.
        destruct Hin as [<- | [<- | [<- | [<- | [<- | []]]]]]; congruence.
      - rewrite Hk in Hk'. injection Hk' as <-. destruct Hkk; contradiction. }
    unfold query_param at 1. rewrite Hd. simpl. eauto. }
  split; [exact E|]. destruct E as (loc & type & ->). reflexivity.
Qed.

Lemma quote_route_refuses_incomplete_queries_witness :
  status_code (get_quote_route [("sellToken", "0xaa"); ("buyToken", "0xbb");
                                ("kind", "sell"); ("amount", "100")]) = 422
  /\ status_code (get_quote_route (sample_query "swap" "100")) = 422.
Proof.
  split.
  - apply quote_route_refuses_incomplete_queries.
    left. exists "deadline". split; [simpl; tauto | reflexivity].
  - apply quote_route_refuses_incomplete_queries.
    right. exists "swap". split; [reflexivity | split; discriminate].
Defined.

(** The dict a two-item display builds. *)
Lemma dict_of_two_items {V : Type} (k1 k2 : string) (v1 v2 : V) :
  Py.dict_of_items [(k1, v1); (k2, v2)]
  = if String.eqb k2 k1 then [(k1, v2)] else [(k1, v1); (k2, v2)].
Proof.
  unfold Py.dict_of_items. simpl. now destruct (String.eqb k2 k1).
Qed.

(** X4.  Every quote that is returned prices the buy token at
    950000000000000000 and, when the two tokens differ, the sell token at
    1000000000000000000, in this order; when the sell token is the buy token
    the dict display keeps one entry, with the later price.  The solver is the
    mock address of index 0, the gas is 150000 and no interaction or JIT order
    is returned. *)
Theorem quote_clearing_prices :
  forall (sellToken buyToken : Address) (kind : Side.t) (amount : TokenAmount)
         (deadline : DateTime.t) (r : QuoteResponse.t),
    get_quote sellToken buyToken kind amount deadline = Ok r ->
    Py.dict_get buyToken (QuoteResponse.clearingPrices r) = Some "950000000000000000"
    /\ Py.dict_get sellToken (QuoteResponse.clearingPrices r)
       = Some (if String.eqb sellToken buyToken
               then "950000000000000000" else "1000000000000000000")
    /\ Py.keys (QuoteResponse.clearingPrices r)
       = (if String.eqb sellToken buyToken then [sellToken] else [sellToken; buyToken])
    /\ QuoteResponse.solver r = "0x111111111111111111111111111111111111110aBcDeF"
    /\ QuoteResponse.gas r = 150000
    /\ QuoteResponse.interactions r = []
    /\ QuoteResponse.jitOrders r = [].
Proof.
  intros sellToken buyToken kind amount deadline r H.
  rewrite get_quote_outcome in H.
  destruct (get_quote_locals kind amount); [|discriminate]. injection H as <-.
  unfold mock_quote. cbn [QuoteResponse.clearingPrices QuoteResponse.solver
                          QuoteResponse.gas QuoteResponse.interactions
                          QuoteResponse.jitOrders].
  rewrite dict_of_two_items. rewrite (String.eqb_sym sellToken buyToken).
  destruct (String.eqb buyToken sellToken) eqn:E.
  - apply String.eqb_eq in E. subst. simpl. rewrite String.eqb_refl. repeat split.
  - simpl. rewrite E. rewrite String.eqb_refl.
    rewrite String.eqb_sym in E. rewrite E. rewrite String.eqb_refl. repeat split.
Qed.

Lemma quote_clearing_prices_witness :
  Py.dict_get "0xaa" (QuoteResponse.clearingPrices (mock_quote "0xaa" "0xaa"))
  = Some "950000000000000000"
  /\ Py.keys (QuoteResponse.clearingPrices (mock_quote "0xaa" "0xaa")) = ["0xaa"]
  /\ Py.dict_get "0xaa" (QuoteResponse.clearingPrices (mock_quote "0xaa" "0xbb"))
     = Some "1000000000000000000".
Proof.
  destruct (quote_clearing_prices "0xaa" "0xaa" Side.sell "1" sample_deadline
              (mock_quote "0xaa" "0xaa") eq_refl) as (H1 & _ & H3 & _).
  destruct (quote_clearing_prices "0xaa" "0xbb" Side.buy "1" sample_deadline
              (mock_quote "0xaa" "0xbb") eq_refl) as (_ & H2 & _).
  repeat split; assumption.
Defined.

(** ** The mock address *)

Lemma len_append (s1 s2 : string) : Py.len (s1 ++ s2) = Py.len s1 + Py.len s2.
Proof.
  unfold Py.len. induction s1 as [|c s1 IH]; simpl String.length.
  - reflexivity.
  - rewrite !Nat2Z.inj_succ. simpl in IH. lia.
Qed.

Lemma len_str_repeat (c : ascii) (n : Z) : Py.len (Py.str_repeat c n) = Z.max 0 n.
Proof.
  unfold Py.len, Py.str_repeat.
  assert (H : forall l, String.length (string_of_list_ascii l) = List.length l).
  { induction l; simpl; auto. }
  rewrite H, repeat_length. lia.
Qed.

(** X5.  For an index [str()] writes, that is with [|index| < 10^4300],
    the mock address has 8 characters more than the longer of 39 and the
    index's numeral: it is at least 47 characters long and never the 42
    characters of a [0x]-prefixed 20 byte address.  For any other index the
    f-string raises [ValueError]. *)
Theorem mock_address_length :
  forall (index : Z),
    (Z.abs index < 10 ^ Py.int_max_str_digits ->
     exists a : Address,
       get_mock_address index = Ok a
       /\ Py.len a = 8 + Z.max 39 (Py.len (Py.decimal index))
       /\ 47 <= Py.len a
       /\ Py.len a <> 42)
    /\ (10 ^ Py.int_max_str_digits <= Z.abs index ->
        get_mock_address index = Raise ValueError).
Proof.
  intros index. split; intros H; unfold get_mock_address.
  - rewrite (str_of_int_below index H). cbn [bind]. eexists. split; [reflexivity|].
    assert (E : Py.len ("0x" ++ Py.str_repeat "1" (39 - Py.len (Py.decimal index))
                          ++ Py.decimal index ++ "aBcDeF")
                = 8 + Z.max 39 (Py.len (Py.decimal index))).
    { rewrite !len_append, len_str_repeat.
      change (Py.len "0x") with 2. change (Py.len "aBcDeF") with 6. lia. }
    rewrite E. repeat split; lia.
  - now rewrite (str_of_int_above index H).
Qed.

Lemma mock_address_length_witness :
  (exists a : Address,
      get_mock_address (-7) = Ok a
      /\ Py.len a = 8 + Z.max 39 (Py.len (Py.decimal (-7)))
      /\ 47 <= Py.len a
      /\ Py.len a <> 42)
  /\ get_mock_address (10 ^ 4300) = Raise ValueError.
Proof.
  split.
  - apply (proj1 (mock_address_length (-7))). vm_compute. reflexivity.
  - apply (proj2 (mock_address_length (10 ^ 4300))). vm_compute. discriminate.
Defined.

(** ** The solve handler: what it reads and what it builds *)

(** X6.  The solve handler reads the first order and the first liquidity
    entry only: two auctions that agree on them get the same response,
    whatever their further orders and liquidity, deadlines, ids, gas prices
    and tokens. *)
Theorem solve_reads_only_the_first_order_and_liquidity :
  forall (r r' : SolverRequest.t) (O : SolverOrder.t) (os os' : list SolverOrder.t)
         (L : SolverLiquidity.t) (ls ls' : list SolverLiquidity.t),
    SolverRequest.orders r = O :: os ->
    SolverRequest.liquidity r = L :: ls ->
    SolverRequest.orders r' = O :: os' ->
    SolverRequest.liquidity r' = L :: ls' ->
    solve_auction r = solve_auction r'.
Proof.
  intros r r' O os os' L ls ls' HO HL HO' HL'.
  now rewrite (solve_auction_cons r O os L ls HO HL),
    (solve_auction_cons r' O os' L ls' HO' HL').
Qed.

Lemma solve_reads_only_the_first_order_and_liquidity_witness :
  solve_auction sample_request
  = solve_auction
      (with_id (Some 7)
         (sample_request_of [sample_order; sample_buy_order]
            [sample_liquidity; sample_liquidity])).
Proof.
  exact (solve_reads_only_the_first_order_and_liquidity
           sample_request
           (with_id (Some 7)
              (sample_request_of [sample_order; sample_buy_order]
                 [sample_liquidity; sample_liquidity]))
           sample_order [] [sample_buy_order] sample_liquidity [] [sample_liquidity]
           eq_refl eq_refl eq_refl eq_refl).
Defined.

(** A response holds no solution or the one built from the heads of the two
    lists. *)
Lemma solve_auction_solutions (r : SolverRequest.t) (s : Solution.t) :
  In s (SolveResponse.solutions (solve_auction r)) ->
  exists O os L ls,
    SolverRequest.orders r = O :: os
    /\ SolverRequest.liquidity r = L :: ls
    /\ solve_auction r = SolveResponse.mk [s].
Proof.
  destruct (SolverRequest.orders r) as [|O os] eqn:HO.
  - rewrite solve_auction_empty by now left. intros [].
  - destruct (SolverRequest.liquidity r) as [|L ls] eqn:HL.
    + rewrite solve_auction_empty by now right. intros [].
    + intros Hin. exists O, os, L, ls. repeat split.
      rewrite (solve_auction_cons r O os L ls HO HL) in *.
      destruct Hin as [<- | []]. reflexivity.
Qed.

(** X7.  Every solution refers to its own auction: each trade names the
    uid of an order of the request, each interaction the id of a liquidity
    entry of the request, and each priced token is the sell or the buy token
    of an order of the request. *)
Theorem solutions_refer_to_their_auction :
  forall (r : SolverRequest.t) (s : Solution.t),
    In s (SolveResponse.solutions (solve_auction r)) ->
    (forall t, In t (Solution.trades s) ->
       exists o, In o (SolverRequest.orders r)
                 /\ SolverOrder.uid o = TradeFulfillment.order t)
    /\ (forall i, In i (Solution.interactions s) ->
          exists l, In l (SolverRequest.liquidity r)
                    /\ SolverLiquidity.id l = LiquidityInteraction.id i)
    /\ (forall token, In token (Py.keys (Solution.prices s)) ->
          exists o, In o (SolverRequest.orders r)
                    /\ (token = SolverOrder.sellToken o \/ token = SolverOrder.buyToken o)).
Proof.
  intros r s Hin.
  destruct (solve_auction_solutions r s Hin) as (O & os & L & ls & HO & HL & E).
  rewrite (solve_auction_cons r O os L ls HO HL) in E. injection E as <-.
  rewrite HO, HL. cbn [Solution.trades Solution.interactions Solution.prices].
  repeat split.
  - intros t [<- | []]. exists O. split; [now left | reflexivity].
  - intros i [<- | []]. exists L. split; [now left | reflexivity].
  - intros token Htoken. exists O. split; [now left|].
    rewrite dict_of_two_items in Htoken.
    destruct (String.eqb (SolverOrder.buyToken O) (SolverOrder.sellToken O));
      simpl in Htoken; intuition.
Qed.

Lemma solutions_refer_to_their_auction_witness :
  (forall t, In t (Solution.trades sample_Solution) ->
     exists o, In o (SolverRequest.orders sample_request)
               /\ SolverOrder.uid o = TradeFulfillment.order t)
  /\ (forall i, In i (Solution.interactions sample_Solution) ->
        exists l, In l (SolverRequest.liquidity sample_request)
                  /\ SolverLiquidity.id l = LiquidityInteraction.id i)
  /\ (forall token, In token (Py.keys (Solution.prices sample_Solution)) ->
        exists o, In o (SolverRequest.orders sample_request)
                  /\ (token = SolverOrder.sellToken o \/ token = SolverOrder.buyToken o)).
Proof.
  apply (solutions_refer_to_their_auction sample_request sample_Solution).
  left. reflexivity.
Defined.

(** X8.  The solution fills the first order at its own limit: the buy
    token is priced at the order's [sellAmount] and the sell token at its
    [buyAmount] (at its [sellAmount] when the two tokens are the same, the
    dict keeping one entry), each token priced once; the one interaction
    sends the full [sellAmount] of the sell token in and the [buyAmount] of
    the buy token out, is not internalized, and the gas is 250000. *)
Theorem solution_is_the_break_even_fill :
  forall (r : SolverRequest.t) (O : SolverOrder.t) (os : list SolverOrder.t)
         (L : SolverLiquidity.t) (ls : list SolverLiquidity.t),
    SolverRequest.orders r = O :: os ->
    SolverRequest.liquidity r = L :: ls ->
    exists (s : Solution.t) (i : LiquidityInteraction.t),
      SolveResponse.solutions (solve_auction r) = [s]
      /\ Solution.interactions s = [i]
      /\ Py.dict_get (SolverOrder.buyToken O) (Solution.prices s)
         = Some (SolverOrder.sellAmount O)
      /\ Py.dict_get (SolverOrder.sellToken O) (Solution.prices s)
         = Some (if String.eqb (SolverOrder.sellToken O) (SolverOrder.buyToken O)
                 then SolverOrder.sellAmount O else SolverOrder.buyAmount O)
      /\ NoDup (Py.keys (Solution.prices s))
      /\ LiquidityInteraction.inputToken i = SolverOrder.sellToken O
      /\ LiquidityInteraction.inputAmount i = SolverOrder.sellAmount O
      /\ LiquidityInteraction.outputToken i = SolverOrder.buyToken O
      /\ LiquidityInteraction.outputAmount i = SolverOrder.buyAmount O
      /\ LiquidityInteraction.internalize i = false
      /\ Solution.gas s = Some 250000.
Proof.
  intros r O os L ls HO HL.
  rewrite (solve_auction_cons r O os L ls HO HL).
  do 2 eexists. split; [reflexivity|]. split; [reflexivity|].
  cbn [Solution.prices Solution.gas LiquidityInteraction.inputToken
       LiquidityInteraction.inputAmount LiquidityInteraction.outputToken
       LiquidityInteraction.outputAmount LiquidityInteraction.internalize].
  rewrite dict_of_two_items.
  destruct (String.eqb_spec (SolverOrder.sellToken O) (SolverOrder.buyToken O))
    as [Heq | Hne].
  - rewrite <- Heq, String.eqb_refl. simpl. rewrite String.eqb_refl.
    repeat split. repeat constructor. simpl. tauto.
  - assert (E : String.eqb (SolverOrder.buyToken O) (SolverOrder.sellToken O) = false)
      by (apply String.eqb_neq; congruence).
    rewrite E. simpl. rewrite E, !String.eqb_refl.
    repeat split. repeat constructor; simpl; intuition.
Qed.

Lemma solution_is_the_break_even_fill_witness :
  exists (s : Solution.t) (i : LiquidityInteraction.t),
    SolveResponse.solutions (solve_auction sample_buy_request) = [s]
    /\ Solution.interactions s = [i]
    /\ Py.dict_get "0xaa" (Solution.prices s) = Some "2000"
    /\ Py.dict_get "0xbb" (Solution.prices s) = Some "500"
    /\ NoDup (Py.keys (Solution.prices s))
    /\ LiquidityInteraction.inputToken i = "0xbb"
    /\ LiquidityInteraction.inputAmount i = "2000"
    /\ LiquidityInteraction.outputToken i = "0xaa"
    /\ LiquidityInteraction.outputAmount i = "500"
    /\ LiquidityInteraction.internalize i = false
    /\ Solution.gas s = Some 250000.
Proof.
  exact (solution_is_the_break_even_fill sample_buy_request sample_buy_order
           [sample_order] sample_liquidity [] eq_refl eq_refl).
Defined.

(** ** Dicts keep their keys unique *)

Lemma dict_set_keys {V : Type} (k : string) (v : V) (d : Py.dict V) :
  Py.keys (Py.dict_set k v d)
  = if existsb (String.eqb k) (Py.keys d) then Py.keys d else (Py.keys d ++ [k])%list.
Proof.
  unfold Py.keys. induction d as [|[k' v'] d IH]; simpl.
  - reflexivity.
  - destruct (String.eqb k k') eqn:E; simpl.
    + reflexivity.
    + rewrite IH. now destruct (existsb (String.eqb k) (map fst d)).
Qed.

Lemma dict_set_nodup {V : Type} (k : string) (v : V) (d : Py.dict V) :
  NoDup (Py.keys d) -> NoDup (Py.keys (Py.dict_set k v d)).
Proof.
  intros Hnd. rewrite dict_set_keys.
  destruct (existsb (String.eqb k) (Py.keys d)) eqn:E; [assumption|].
  apply NoDup_app; [assumption | repeat constructor; simpl; tauto |].
  intros x Hx [Hk | []]. subst x.
  assert (existsb (String.eqb k) (Py.keys d) = true); [|congruence].
  apply existsb_exists. exists k. split; [assumption | apply String.eqb_refl].
Qed.

Lemma dict_of_items_keys_nodup {V : Type} (items : list (string * V)) :
  NoDup (Py.keys (Py.dict_of_items items)).
Proof.
  unfold Py.dict_of_items.
  assert (H : forall acc : Py.dict V,
             NoDup (Py.keys acc) ->
             NoDup (Py.keys (fold_left (fun d kv => Py.dict_set (fst kv) (snd kv) d)
                               items acc))).
  { induction items as [|[k v] items IH]; intros acc Hacc; simpl.
    - assumption.
    - apply IH. now apply dict_set_nodup. }
  apply H. constructor.
Qed.

(** ** Solutions on the wire *)

(** X10.  Whatever payload a Solution was decoded from, its prices have
    each key once, and sending it yields a payload that decodes to the same
    Solution: decoding normalizes, and the normal form is stable. *)
Theorem decoded_solution_is_canonical :
  forall (j : json) (s : Solution.t),
    Solution.validate j = Ok s ->
    NoDup (Py.keys (Solution.prices s))
    /\ Solution.validate (Solution.dump s) = Ok s.
Proof.
  intros j s H.
  assert (Hv : Solution_valid s).
  { unfold Solution.validate in H.
    apply bind_ok in H as (d & _ & H).
    apply bind_ok in H as (id & _ & H).
    apply bind_ok in H as (prices & Hprices & H).
    repeat (apply bind_ok in H as (? & _ & H)).
    injection H as <-. unfold Solution_valid. cbn [Solution.prices].
    unfold required in Hprices.
    destruct (Py.dict_get "prices" d) as [jp|]; [|discriminate].
    apply at_loc_ok in Hprices. unfold validate_dict in Hprices.
    destruct jp; try discriminate.
    apply fmap_ok in Hprices as (items & _ & ->).
    apply dict_of_items_keys_nodup. }
  split; [exact Hv | now apply Solution_round_trip].
Qed.

Lemma decoded_solution_is_canonical_witness :
  NoDup (Py.keys (Solution.prices
                    (Solution.mk 0 [("0xaa", "950"); ("0xbb", "1000")]
                       [TradeFulfillment.mk "0x01" "1000" None] [] None)))
  /\ Solution.validate
       (Solution.dump (Solution.mk 0 [("0xaa", "950"); ("0xbb", "1000")]
                         [TradeFulfillment.mk "0x01" "1000" None] [] None))
     = Ok (Solution.mk 0 [("0xaa", "950"); ("0xbb", "1000")]
             [TradeFulfillment.mk "0x01" "1000" None] [] None).
Proof.
  apply (decoded_solution_is_canonical solution_without_gas).
  vm_compute. reflexivity.
Defined.

(** ** The [id] of a solve request: what is refused and what escapes *)

(** X11.  What [anystr_to_int] returns is [None] or an [int]; it is [None]
    only for [None]; and the function leaves its own results as they are. *)
Theorem anystr_to_int_is_a_normal_form :
  forall (v v' : json),
    SolverRequest.anystr_to_int v = Ok v' ->
    (v' = JNull \/ exists n, v' = JInt n)
    /\ SolverRequest.anystr_to_int v' = Ok v'
    /\ (v' = JNull <-> v = JNull).
Proof.
  intros v v' H. unfold SolverRequest.anystr_to_int in H.
  destruct v as [|b|n|x|s|items|members]; simpl in H;
    try (injection H as <-; repeat split; eauto; discriminate);
    try discriminate.
  - destruct (Py.int_of_float x) as [n|]; [|discriminate]. injection H as <-.
    repeat split; eauto; discriminate.
  - destruct (Py.int_of_str s) as [n|]; [|discriminate]. injection H as <-.
    repeat split; eauto; discriminate.
Qed.

Lemma anystr_to_int_is_a_normal_form_witness :
  (JInt 42 = JNull \/ exists n, JInt 42 = JInt n)
  /\ SolverRequest.anystr_to_int (JInt 42) = Ok (JInt 42)
  /\ (JInt 42 = JNull <-> JStr " 4_2 " = JNull).
Proof.
  apply (anystr_to_int_is_a_normal_form (JStr " 4_2 ") (JInt 42)).
  vm_compute. reflexivity.
Defined.

(** X12.  In a solve request an [id] that [int()] cannot convert fails in
    the way [int()] fails.  A list or an object raises [TypeError] and an
    infinite float [OverflowError]: they escape the validator, whatever the
    other fields hold, and the answer is status 500.  A string of ASCII
    characters that is no integer literal and a NaN raise [ValueError]: the
    request is refused, and when its deadline and gas price are valid the
    first error reported is a validation error located at [id]. *)
Theorem solve_request_id_failures :
  forall (d : Py.dict json) (v : json),
    Py.dict_get "id" d = Some v ->
    let refused :=
      is_ok (post_solve (JObj d)) = false
      /\ forall (deadline : DateTime.t) (gasPrice : TokenAmount),
           required d "deadline" DateTime.validate = Ok deadline ->
           required d "effectiveGasPrice" validate_TokenAmount = Ok gasPrice ->
           SolverRequest.validate (JObj d) = Raise (ValidationError ["id"] "value_error") in
    match v with
    | JArr _ | JObj _ =>
        SolverRequest.validate (JObj d) = Raise TypeError
        /\ status_code (post_solve (JObj d)) = 500
    | JStr s =>
        Py.isascii s = true -> is_ok (Py.int_of_str s) = false -> refused
    | JFloat x =>
        (Py.int_of_float x = Raise OverflowError ->
         SolverRequest.validate (JObj d) = Raise OverflowError
         /\ status_code (post_solve (JObj d)) = 500)
        /\ (Py.int_of_float x = Raise ValueError -> refused)
    | JNull | JBool _ | JInt _ => True
    end.
Proof.
  intros d v Hid.
  assert (Ew : with_default d "id" SolverRequest.validate_id None
               = at_loc "id" (SolverRequest.validate_id v)).
  { unfold with_default. now rewrite Hid. }
  assert (Hrefused :
            SolverRequest.validate_id v = Raise (ValidationError [] "value_error") ->
            is_ok (post_solve (JObj d)) = false
            /\ forall (deadline : DateTime.t) (gasPrice : TokenAmount),
                 required d "deadline" DateTime.validate = Ok deadline ->
                 required d "effectiveGasPrice" validate_TokenAmount = Ok gasPrice ->
                 SolverRequest.validate (JObj d)
                 = Raise (ValidationError ["id"] "value_error")).
  { intros Ev. unfold post_solve, SolverRequest.validate.
    cbn [model_fields bind]. rewrite !Ew, Ev. cbn [at_loc escaping bind]. split.
    - destruct (required d "deadline" DateTime.validate) as [x | []]; cbn;
        try reflexivity.
      destruct (required d "effectiveGasPrice" validate_TokenAmount) as [y | []]; cbn;
        reflexivity.
    - intros deadline gasPrice -> ->. reflexivity. }
  assert (Hescapes :
            forall e, SolverRequest.validate_id v = Raise e ->
                      e = TypeError \/ e = OverflowError ->
                      SolverRequest.validate (JObj d) = Raise e
                      /\ status_code (post_solve (JObj d)) = 500).
  { intros e Ev He. unfold post_solve, SolverRequest.validate.
    cbn [model_fields bind]. rewrite !Ew, Ev.
    destruct He as [-> | ->]; split; reflexivity. }
  cbv zeta.
  unfold SolverRequest.validate_id, before_validator, SolverRequest.anystr_to_int
    in Hrefused, Hescapes.
  destruct v as [|b|n|x|s|items|members]; cbn [int_of_object fmap bind] in *;
    try exact I.
  - split; intros E; rewrite E in *; cbn [bind] in *.
    + apply (Hescapes OverflowError); auto.
    + apply Hrefused. reflexivity.
  - intros _ Hs. destruct (Py.int_of_str s) as [n | e] eqn:Es; [discriminate|].
    apply int_of_str_raises_ValueError in Es. subst e. apply Hrefused. reflexivity.
  - apply (Hescapes TypeError); auto.
  - apply (Hescapes TypeError); auto.
Qed.

Lemma solve_request_id_failures_witness :
  (SolverRequest.validate (JObj (sample_members_with_id (JArr [JInt 1]))) = Raise TypeError
   /\ status_code (post_solve (JObj (sample_members_with_id (JArr [JInt 1])))) = 500)
  /\ is_ok (post_solve (JObj (sample_members_with_id (JStr "0x2a")))) = false
  /\ SolverRequest.validate (JObj (sample_members_with_id (JStr "0x2a")))
     = Raise (ValidationError ["id"] "value_error")
  /\ (SolverRequest.validate (JObj (sample_members_with_id (JFloat infinity)))
      = Raise OverflowError
      /\ status_code (post_solve (JObj (sample_members_with_id (JFloat infinity)))) = 500)
  /\ is_ok (post_solve (JObj (sample_members_with_id (JFloat nan)))) = false.
Proof.
  split; [|split; [|split; [|split]]].
  - exact (solve_request_id_failures (sample_members_with_id (JArr [JInt 1]))
             (JArr [JInt 1]) eq_refl).
  - apply (solve_request_id_failures (sample_members_with_id (JStr "0x2a"))
             (JStr "0x2a") eq_refl); reflexivity.
  - apply (solve_request_id_failures (sample_members_with_id (JStr "0x2a"))
             (JStr "0x2a") eq_refl eq_refl eq_refl) with (deadline := sample_deadline)
                                                         (gasPrice := "1");
      reflexivity.
  - apply (solve_request_id_failures (sample_members_with_id (JFloat infinity))
             (JFloat infinity) eq_refl).
    reflexivity.
  - apply (solve_request_id_failures (sample_members_with_id (JFloat nan))
             (JFloat nan) eq_refl).
    reflexivity.
Defined.

(** ** Members that name no field *)




(** ** An order of a solve request is read from [class] *)

Lemma SolverOrder_without_class (o : Py.dict json) :
  Py.dict_get "class" o = None -> is_ok (SolverOrder.validate (JObj o)) = false.
Proof.
  intros Hc. unfold SolverOrder.validate. simpl.
  rewrite (required_missing o "class" OrderClass.validate Hc).
  repeat match goal with
         | |- is_ok (bind ?m _) = false => destruct m; simpl; [|reflexivity]
         end.
  reflexivity.
Qed.

Lemma is_ok_at_loc {A : Type} (name : string) (r : result A) :
  is_ok (at_loc name r) = is_ok r.
Proof.
  destruct r as [a | []]; reflexivity.
Qed.

(** X14.  A solve request whose first order has no [class] member is not
    answered with a success, whatever else the order and the request hold: the
    order class is read from the key [class] alone, not from [klass]. *)
Theorem solve_refuses_an_order_without_class :
  forall (d o : Py.dict json) (rest : list json),
    Py.dict_get "orders" d = Some (JArr (JObj o :: rest)) ->
    Py.dict_get "class" o = None ->
    is_ok (post_solve (JObj d)) = false.
Proof.
  intros d o rest Hd Hc.
  assert (E : is_ok (required d "orders" (validate_list SolverOrder.validate)) = false).
  { unfold required. rewrite Hd, is_ok_at_loc. simpl.
    pose proof (SolverOrder_without_class o Hc) as H.
    destruct (SolverOrder.validate (JObj o)) as [x | []]; [discriminate | reflexivity ..]. }
  unfold post_solve, SolverRequest.validate. simpl.
  destruct (required d "orders" (validate_list SolverOrder.validate)) as [x|e] eqn:Eo;
    [discriminate|].
  repeat match goal with
         | |- is_ok (bind (at_loc _ (bind ?m _)) _) = false =>
             destruct m as [? | []]; simpl; [|reflexivity ..]
         end.
  destruct e; reflexivity.
Qed.

Lemma solve_refuses_an_order_without_class_witness :
  is_ok (post_solve
           (JObj (Py.dict_set "orders" (JArr [sample_order_json_keyed "class"])
                    sample_members))) = true
  /\ is_ok (post_solve
              (JObj (Py.dict_set "orders" (JArr [sample_order_json_keyed "klass"])
                       sample_members))) = false.
Proof.
  split; [vm_compute; reflexivity|].
  apply (solve_refuses_an_order_without_class
           (Py.dict_set "orders" (JArr [sample_order_json_keyed "klass"]) sample_members)
           [("appData", JStr "0x00");
            ("buyAmount", JStr "950");
            ("buyToken", JStr "0xbb");
            ("buyTokenDestination", JStr "erc20");
            ("klass", JStr "limit");
            ("fullBuyAmount", JStr "950");
            ("fullSellAmount", JStr "1000");
            ("kind", JStr "sell");
            ("owner", JStr "0xcc");
            ("partiallyFillable", JBool false);
            ("sellAmount", JStr "1000");
            ("sellToken", JStr "0xaa");
            ("sellTokenSource", JStr "erc20");
            ("signature", JStr "0x");
            ("signingScheme", JStr "eip712");
            ("uid", JStr "0x01");
            ("validTo", JInt 1700000000)] []); reflexivity.
Defined.

(** ** The remaining round trips *)

Lemma JitOrder_round_trip (x : JitOrder.t) :
  JitOrder.validate (JitOrder.dump x) = Ok x.
Proof.
  destruct x. unfold JitOrder.validate, JitOrder.dump.
  repeat round_trip_step. reflexivity.
Qed.

Lemma QuoteResponse_round_trip (x : QuoteResponse.t) :
  NoDup (Py.keys (QuoteResponse.clearingPrices x)) ->
  QuoteResponse.validate (QuoteResponse.dump x) = Ok x.
Proof.
  destruct x. simpl. intros Hnd.
  assert (Hjit : Forall (fun o => JitOrder.validate (JitOrder.dump o) = Ok o) jitOrders).
  { apply Forall_forall. intros o _. apply JitOrder_round_trip. }
  unfold QuoteResponse.validate, QuoteResponse.dump.
  repeat round_trip_step. reflexivity.
Qed.

(** X15.  A QuoteResponse whose clearing prices have each key once is
    decoded from what it is sent as; and every response the quote handler
    returns is such a response. *)
Theorem quote_response_survives_the_wire :
  (forall x : QuoteResponse.t,
      NoDup (Py.keys (QuoteResponse.clearingPrices x)) ->
      QuoteResponse.validate (QuoteResponse.dump x) = Ok x)
  /\ (forall (sellToken buyToken : Address) (kind : Side.t) (amount : TokenAmount)
             (deadline : DateTime.t) (r : QuoteResponse.t),
        get_quote sellToken buyToken kind amount deadline = Ok r ->
        QuoteResponse.validate (QuoteResponse.dump r) = Ok r).
Proof.
  split; [exact QuoteResponse_round_trip|].
  intros sellToken buyToken kind amount deadline r H.
  rewrite get_quote_outcome in H.
  destruct (get_quote_locals kind amount); [|discriminate]. injection H as <-.
  apply QuoteResponse_round_trip. apply dict_of_items_keys_nodup.
Qed.

Lemma quote_response_survives_the_wire_witness :
  QuoteResponse.validate (QuoteResponse.dump sample_QuoteResponse) = Ok sample_QuoteResponse
  /\ QuoteResponse.validate (QuoteResponse.dump (mock_quote "0xaa" "0xaa"))
     = Ok (mock_quote "0xaa" "0xaa").
Proof.
  destruct quote_response_survives_the_wire as (H1 & H2).
  split.
  - apply H1. simpl. repeat constructor; simpl; intuition discriminate.
  - apply (H2 "0xaa" "0xaa" Side.buy "7" sample_deadline). reflexivity.
Defined.

Lemma Token_round_trip (x : Token.t) : Token.validate (Token.dump x) = Ok x.
Proof.
  destruct x. unfold Token.validate, Token.dump.
  repeat round_trip_step. reflexivity.
Qed.

Lemma LegacyQuoteResponse_round_trip (x : LegacyQuoteResponse.t) :
  LegacyQuoteResponse.validate (LegacyQuoteResponse.dump x) = Ok x.
Proof.
  destruct x. unfold LegacyQuoteResponse.validate, LegacyQuoteResponse.dump.
  repeat round_trip_step. reflexivity.
Qed.

(** X16.  Every Token, JitOrder, LegacyQuoteResponse, SolutionOrderDetail,
    Error, Interaction and Quote is decoded from what it is sent as, whatever
    its field values. *)
Theorem plain_models_round_trip :
  (forall x : Token.t, Token.validate (Token.dump x) = Ok x)
  /\ (forall x : JitOrder.t, JitOrder.validate (JitOrder.dump x) = Ok x)
  /\ (forall x : LegacyQuoteResponse.t,
        LegacyQuoteResponse.validate (LegacyQuoteResponse.dump x) = Ok x)
  /\ (forall x : SolutionOrderDetail.t,
        SolutionOrderDetail.validate (SolutionOrderDetail.dump x) = Ok x)
  /\ (forall x : Error.t, Error.validate (Error.dump x) = Ok x)
  /\ (forall x : Interaction.t, Interaction.validate (Interaction.dump x) = Ok x)
  /\ (forall x : Quote.t, Quote.validate (Quote.dump x) = Ok x).
Proof.
  repeat apply conj.
  - exact Token_round_trip.
  - exact JitOrder_round_trip.
  - exact LegacyQuoteResponse_round_trip.
  - intros x. destruct x. unfold SolutionOrderDetail.validate, SolutionOrderDetail.dump.
    repeat round_trip_step. reflexivity.
  - intros x. now destruct x.
  - exact Interaction_round_trip.
  - exact Quote_round_trip.
Qed.

(** ** The settle endpoint *)

Lemma settle_error_inputs_render (body : json) :
  renders body = true -> forallb renders (settle_error_inputs body) = true.
Proof.
  intros H. unfold settle_error_inputs.
  destruct body as [|b|n|x|s|items|d];
    try (cbn [forallb]; rewrite H; reflexivity).
  rewrite !forallb_app, !field_error_inputs_render by exact H. reflexivity.
Qed.

(** A settle body decodes or is refused with a validation error. *)
Lemma SettleRequest_validate_outcome (body : json) :
  (exists r, SettleRequest.validate body = Ok r)
  \/ (exists loc type, SettleRequest.validate body = Raise (ValidationError loc type)).
Proof.
  unfold SettleRequest.validate.
  destruct body as [|b|n|x|s|items|d]; simpl; eauto.
  destruct (required_int_outcome d "solutionId") as [[n1 ->] | (loc & type & ->)];
    simpl; eauto.
  destruct (required_int_outcome d "submissionDeadlineLatestBlock")
    as [[n2 ->] | (loc & type & ->)]; simpl; eauto.
  destruct (required_int_outcome d "auctionId") as [[n3 ->] | (loc & type & ->)];
    simpl; eauto.
Qed.

(** The integer [int()] reads from a literal of [n] digits is below [10^n]. *)
Lemma int_digits_bound (s : list ascii) :
  forall (acc k : Z) (st : Py.literal_state) (v n : Z),
    0 <= k -> 0 <= acc < 10 ^ k ->
    Py.int_digits acc k st s = Some (v, n) ->
    k <= n /\ 0 <= v < 10 ^ n.
Proof.
  induction s as [|c s IH]; intros acc k st v n Hk Hacc H; cbn [Py.int_digits] in H.
  - destruct st; try discriminate. injection H as <- <-. split; [lia | exact Hacc].
  - destruct (Py.digit c) as [d|] eqn:Ed.
    + assert (Hd : 0 <= d <= 9).
      { unfold Py.digit in Ed.
        destruct ((48 <=? Z.of_N (N_of_ascii c)) && (Z.of_N (N_of_ascii c) <=? 57)) eqn:E;
          [|discriminate].
        injection Ed as <-. apply andb_prop in E as [E1 E2].
        apply Z.leb_le in E1, E2. lia. }
      apply IH in H; [lia | lia |].
      rewrite Z.pow_add_r, Z.pow_1_r by lia. lia.
    + destruct (Ascii.eqb c "_"); [|discriminate].
      destruct st; try discriminate. apply IH in H; [lia | lia | exact Hacc].
Qed.

Lemma int_of_str_bound (s : string) (n : Z) :
  Py.int_of_str s = Ok n -> Z.abs n < 10 ^ Py.int_max_str_digits.
Proof.
  unfold Py.int_of_str.
  destruct (match Py.strip (list_ascii_of_string s) with
            | [] => _
            | c :: rest => _
            end) as [negative digits].
  destruct (Py.int_digits 0 0 Py.AtStart digits) as [[v k]|] eqn:E; [|discriminate].
  destruct (k <=? Py.int_max_str_digits) eqn:Hk; [|discriminate].
  apply Z.leb_le in Hk.
  apply int_digits_bound in E; [|lia | simpl; lia].
  intros [= <-].
  assert (10 ^ k <= 10 ^ Py.int_max_str_digits) by (apply Z.pow_le_mono_r; lia).
  destruct negative; lia.
Qed.

(** An int that was decoded from a value that renders is one [str()] writes. *)
Lemma validate_int_writable (j : json) (n : Z) :
  validate_int j = Ok n -> renders j = true -> Z.abs n < 10 ^ Py.int_max_str_digits.
Proof.
  assert (H63 : 2 ^ 63 < 10 ^ Py.int_max_str_digits) by (vm_compute; reflexivity).
  assert (H1 : 1 < 10 ^ Py.int_max_str_digits) by (vm_compute; reflexivity).
  remember (10 ^ Py.int_max_str_digits) as M eqn:HM.
  unfold validate_int.
  destruct j as [|b|m|x|s|items|members]; try discriminate.
  - intros [= <-] _. destruct b; simpl; lia.
  - intros [= ->] Hr. cbn [renders] in Hr. unfold Py.str_of_int in Hr.
    destruct (Py.len (Py.decimal (Z.abs n)) <=? Py.int_max_str_digits) eqn:E;
      [|discriminate].
    apply Z.leb_le in E. apply decimal_length_inv in E; lia.
  - destruct (negb (is_finite x)); [discriminate|].
    destruct (Py.float_is_integer x); [|discriminate].
    destruct (Py.int_of_float x) as [m|]; [|discriminate].
    destruct ((- 2 ^ 63 <? m) && (m <? 2 ^ 63)) eqn:E; [|discriminate].
    intros [= <-] _. apply andb_prop in E as [E1 E2].
    apply Z.ltb_lt in E1, E2. lia.
  - destruct (Py.int_of_str s) as [m|] eqn:E; [|discriminate].
    intros [= ->] _. subst M. exact (int_of_str_bound s n E).
Qed.

Lemma required_int_writable (d : Py.dict json) (name : string) (n : Z) :
  required d name validate_int = Ok n -> renders (JObj d) = true ->
  Z.abs n < 10 ^ Py.int_max_str_digits.
Proof.
  unfold required. intros H Hr.
  destruct (Py.dict_get name d) as [j|] eqn:E; [|discriminate].
  apply at_loc_ok in H.
  exact (validate_int_writable j n H (renders_member d name j Hr E)).
Qed.

(** X17.  The settle endpoint answers a body that decodes, its two ids
    being ints [str()] writes, with the empty object and status 200, after
    printing one line that names the solution and the auction; an answer that
    is a success is always the empty object.  It refuses every body that
    lacks one of [solutionId], [submissionDeadlineLatestBlock], [auctionId]:
    with status 422 when the body can be rendered, and with 500 when it
    cannot, for the refusal reports the body.  A body that can be rendered is
    answered with status 200 or refused with 422, never with 500.  What the
    handler prints and returns does not depend on the deadline block. *)
Theorem settle_needs_every_field_and_reads_two :
  (forall (body : json) (r : SettleRequest.t),
      SettleRequest.validate body = Ok r ->
      Z.abs (SettleRequest.solutionId r) < 10 ^ Py.int_max_str_digits ->
      Z.abs (SettleRequest.auctionId r) < 10 ^ Py.int_max_str_digits ->
      post_settle body
      = Ok ("Accepted request to settle solution "
              ++ Py.decimal (SettleRequest.solutionId r)
              ++ " for auction " ++ Py.decimal (SettleRequest.auctionId r) ++ ".",
            JObj [])
      /\ settle_status body = 200)
  /\ (forall (body : json) (out : string * json),
        post_settle body = Ok out -> snd out = JObj [])
  /\ (forall (d : Py.dict json) (name : string),
        In name ["solutionId"; "submissionDeadlineLatestBlock"; "auctionId"] ->
        Py.dict_get name d = None ->
        is_ok (post_settle (JObj d)) = false
        /\ settle_status (JObj d) = (if renders (JObj d) then 422 else 500))
  /\ (forall (body : json),
        renders body = true ->
        (is_ok (post_settle body) = true /\ settle_status body = 200)
        \/ (is_ok (post_settle body) = false /\ settle_status body = 422))
  /\ (forall (solutionId auctionId block block' : Z),
        settle_solution (SettleRequest.mk solutionId block auctionId)
        = settle_solution (SettleRequest.mk solutionId block' auctionId)).
Proof.
  assert (Hok : forall (body : json) (r : SettleRequest.t),
             SettleRequest.validate body = Ok r ->
             Z.abs (SettleRequest.solutionId r) < 10 ^ Py.int_max_str_digits ->
             Z.abs (SettleRequest.auctionId r) < 10 ^ Py.int_max_str_digits ->
             post_settle body
             = Ok ("Accepted request to settle solution "
                     ++ Py.decimal (SettleRequest.solutionId r)
                     ++ " for auction " ++ Py.decimal (SettleRequest.auctionId r) ++ ".",
                   JObj [])
             /\ settle_status body = 200).
  { intros body r Hr Hs Ha. unfold settle_status, post_settle. rewrite Hr.
    cbn [at_loc bind]. unfold settle_solution.
    rewrite (str_of_int_below _ Hs), (str_of_int_below _ Ha). split; reflexivity. }
  repeat apply conj.
  - exact Hok.
  - intros body out. unfold post_settle.
    destruct (SettleRequest.validate body) as [r | []]; cbn [at_loc bind];
      try discriminate.
    unfold settle_solution.
    destruct (Py.str_of_int (SettleRequest.solutionId r)); cbn [bind];
      [|discriminate].
    destruct (Py.str_of_int (SettleRequest.auctionId r)); cbn [bind];
      [|discriminate].
    now intros [= <-].
  - intros d name Hin Hnone.
    assert (E : exists loc type,
               SettleRequest.validate (JObj d) = Raise (ValidationError loc type)).
    { destruct (SettleRequest_validate_outcome (JObj d)) as [[r Hr] | E];
        [exfalso | exact E].
      unfold SettleRequest.validate in Hr. cbn [model_fields bind] in Hr.
      repeat (apply bind_ok in Hr as (? & ? & Hr)).
      unfold required in *. simpl in Hin.
      destruct Hin as [<- | [<- | [<- | []]]]; rewrite Hnone in *; discriminate. }
    destruct E as (loc & type & E).
    unfold settle_status, post_settle. rewrite E. cbn [at_loc bind is_ok sent_status].
    split; [reflexivity|].
    assert (Hin' : forallb renders (settle_error_inputs (JObj d)) = renders (JObj d)).
    { destruct (renders (JObj d)) eqn:Hr.
      - now apply settle_error_inputs_render.
      - cbn [settle_error_inputs]. rewrite !forallb_app. simpl in Hin.
        destruct Hin as [<- | [<- | [<- | []]]];
          rewrite (field_error_inputs_missing d _ validate_int Hnone), Hr;
          rewrite ?andb_false_r; reflexivity. }
    now rewrite Hin'.
  - intros body Hr.
    destruct (SettleRequest_validate_outcome body) as [[r E] | (loc & type & E)].
    + left.
      assert (Hb : Z.abs (SettleRequest.solutionId r) < 10 ^ Py.int_max_str_digits
                   /\ Z.abs (SettleRequest.auctionId r) < 10 ^ Py.int_max_str_digits).
      { unfold SettleRequest.validate in E.
        destruct body as [|b|n|x|s|items|d]; try discriminate.
        cbn [model_fields bind] in E.
        apply bind_ok in E as (n1 & H1 & E). apply bind_ok in E as (n2 & H2 & E).
        apply bind_ok in E as (n3 & H3 & E). injection E as <-. simpl.
        split; eapply required_int_writable; eassumption. }
      destruct (Hok body r E (proj1 Hb) (proj2 Hb)) as (-> & ->). split; reflexivity.
    + right. unfold settle_status, post_settle. rewrite E.
      cbn [at_loc bind sent_status is_ok].
      now rewrite (settle_error_inputs_render body Hr).
  - reflexivity.
Qed.

Lemma settle_needs_every_field_and_reads_two_witness :
  (post_settle (JObj [("solutionId", JInt 1);
                      ("submissionDeadlineLatestBlock", JInt 12345);
                      ("auctionId", JStr "123")])
   = Ok ("Accepted request to settle solution 1 for auction 123.", JObj [])
   /\ settle_status (JObj [("solutionId", JInt 1);
                           ("submissionDeadlineLatestBlock", JInt 12345);
                           ("auctionId", JStr "123")]) = 200)
  /\ settle_status (JObj [("solutionId", JInt 1); ("auctionId", JInt 123)]) = 422
  /\ settle_status (JObj [("solutionId", JInt 1); ("auctionId", JInt 123);
                          ("note", JFloat nan)]) = 500.
Proof.
  destruct settle_needs_every_field_and_reads_two as (Hok & _ & Hmissing & _).
  repeat apply conj.
  - apply (Hok _ (SettleRequest.mk 1 12345 123)); vm_compute; reflexivity.
  - apply (Hok _ (SettleRequest.mk 1 12345 123)); vm_compute; reflexivity.
  - apply (Hmissing [("solutionId", JInt 1); ("auctionId", JInt 123)]
             "submissionDeadlineLatestBlock"); [simpl; tauto | reflexivity].
  - apply (Hmissing [("solutionId", JInt 1); ("auctionId", JInt 123);
                     ("note", JFloat nan)]
             "submissionDeadlineLatestBlock"); [simpl; tauto | reflexivity].
Defined.

(** ** The solve endpoint on the wire *)



